(** * jumbo.cli: the goal aggregate, its claim policy and its read model

    A shallow embedding of the TypeScript sources.  Stateful code is written
    in a small command monad over an explicit [World]; an exception leaves
    the world as it was when it was thrown, as in JavaScript. *)

From Stdlib Require Import ZArith String List Lia Bool Ascii.
From stdpp Require Import base gmap strings list pretty.

Local Open Scope string_scope.

(** ** JavaScript dates

    [new Date(text)] carries a time value: a whole number of milliseconds
    since the epoch, or NaN for text that is no date.  How the engine reads
    and prints timestamps is not code of this repository, so both directions
    are an interface. *)

Class JSDate := {
  (** the time value of [new Date(text)]; [None] is NaN (Invalid Date) *)
  Date_parse : string -> option Z;
  (** the text [toISOString] prints for a valid time value *)
  Date_format : Z -> string
}.

(** Time values beyond 8.64e15 ms are not dates (ECMAScript TimeClip). *)
Definition MAX_TIME_VALUE : Z := 8640000000000000.

Definition TimeClip (t : Z) : option Z :=
  if (Z.abs t <=? MAX_TIME_VALUE)%Z then Some t else None.

(** A [Date] object, as its time value. *)
Definition Date := option Z.

Definition new_Date `{JSDate} (text : string) : Date := Date_parse text.

(** [new Date(a.getTime() + ms)]: NaN stays NaN. *)
Definition Date_plus (a : Date) (ms : Z) : Date :=
  match a with
  | Some t => TimeClip (t + ms)
  | None => None
  end.

(** [a >= b] on two [Date] objects compares their time values; every
    comparison with NaN is false. *)
Definition Date_ge (a b : Date) : bool :=
  match a, b with
  | Some x, Some y => (y <=? x)%Z
  | _, _ => false
  end.

(** ** Exceptions *)

Inductive Exn :=
| Error (message : string)     (* [throw new Error(message)] *)
| RangeError                   (* [toISOString] of an Invalid Date *)
| StorageFailure (port : string). (* an I/O error of a persistence port *)

(** ** Domain constants *)

(** Modelled from the spec: [Constants.ts] is not among the sources.  The
    seven statuses and their texts are those of section 4.2 and of the test
    suites. *)
Inductive GoalStatus :=
| TODO | DOING | BLOCKED | PAUSED | INREVIEW | QUALIFIED | COMPLETED.

Definition status_text (s : GoalStatus) : string :=
  match s with
  | TODO => "to-do"
  | DOING => "doing"
  | BLOCKED => "blocked"
  | PAUSED => "paused"
  | INREVIEW => "in-review"
  | QUALIFIED => "qualified"
  | COMPLETED => "completed"
  end.

Definition GoalStatus_eqb (a b : GoalStatus) : bool :=
  match a, b with
  | TODO, TODO | DOING, DOING | BLOCKED, BLOCKED | PAUSED, PAUSED
  | INREVIEW, INREVIEW | QUALIFIED, QUALIFIED | COMPLETED, COMPLETED => true
  | _, _ => false
  end.

(** [validStatuses.includes(status)] *)
Definition includes (l : list GoalStatus) (s : GoalStatus) : bool :=
  existsb (GoalStatus_eqb s) l.

(** *** Message templates

    Modelled from the spec: [GoalErrorMessages] and [formatErrorMessage]
    live in the absent [Constants.ts].  Section 6 describes "a stable
    message template with interpolated fields"; a template is kept as its
    pieces.  The wording of [GOAL_CLAIMED_BY_ANOTHER_WORKER] and of
    [CANNOT_SUBMIT_FOR_REVIEW_IN_STATUS] is the one the test suites expect;
    the other wordings follow the same pattern and no statement below
    depends on them beyond the field they interpolate. *)
Inductive Piece :=
| Text (s : string)
| Field (name : string).

Definition Template := list Piece.

Fixpoint param (params : list (string * string)) (name : string) : option string :=
  match params with
  | [] => None
  | (k, v) :: rest => if String.eqb k name then Some v else param rest name
  end.

Definition fill (params : list (string * string)) (p : Piece) : string :=
  match p with
  | Text s => s
  | Field name =>
      match param params name with
      | Some v => v
      | None => "{" ++ name ++ "}"
      end
  end.

Definition formatErrorMessage (template : Template) (params : list (string * string)) : string :=
  String.concat "" (map (fill params) template).

Module GoalErrorMessages.
Definition GOAL_NOT_FOUND : Template :=
  [Text "Goal not found: "; Field "id"].
Definition GOAL_CLAIMED_BY_ANOTHER_WORKER : Template :=
  [Text "Goal is claimed by another worker. Claim expires at "; Field "expiresAt"; Text "."].
Definition CANNOT_SUBMIT_FOR_REVIEW_IN_STATUS : Template :=
  [Text "Cannot submit goal for review in "; Field "status"; Text " status"].
Definition CANNOT_QUALIFY_IN_STATUS : Template :=
  [Text "Cannot qualify goal in "; Field "status"; Text " status"].
Definition CANNOT_START_IN_STATUS : Template :=
  [Text "Cannot start goal in "; Field "status"; Text " status"].
Definition CANNOT_PAUSE_IN_STATUS : Template :=
  [Text "Cannot pause goal in "; Field "status"; Text " status"].
Definition CANNOT_RESUME_IN_STATUS : Template :=
  [Text "Cannot resume goal in "; Field "status"; Text " status"].
Definition CANNOT_COMPLETE_IN_STATUS : Template :=
  [Text "Cannot complete goal in "; Field "status"; Text " status"].
Definition CANNOT_RESET_IN_STATUS : Template :=
  [Text "Cannot reset goal in "; Field "status"; Text " status"].
End GoalErrorMessages.

(** [haystack] contains [needle] *)
Definition contains (haystack needle : string) : Prop :=
  exists before after, haystack = before ++ needle ++ after.

(** ** Claims *)

Definition WorkerId := string.

Definition createWorkerId (value : string) : WorkerId := value.

Record GoalClaim := {
  goalId : string;
  claimedBy : WorkerId;
  claimedAt : string;
  claimExpiresAt : string
}.

(** ** Domain events *)

(** The planning context a goal may embed at creation; every part is optional. *)
Record PlanningContext := {
  relevantInvariants : option (list (string * string));
  relevantGuidelines : option (list (string * string));
  relevantDependencies : option (list (string * string));
  relevantComponents : option (list (string * string));
  architecture : option (string * string);
  filesToBeCreated : option (list string);
  filesToBeChanged : option (list string)
}.

Definition no_context : PlanningContext :=
  {| relevantInvariants := None; relevantGuidelines := None;
     relevantDependencies := None; relevantComponents := None;
     architecture := None; filesToBeCreated := None; filesToBeChanged := None |}.

(** The payload decides the event type; every payload carries the resulting
    status.  [GoalStartedEvent], [GoalResumedEvent], [GoalSubmittedForReviewEvent]
    and [GoalQualifiedEvent] are the declared interfaces; the others are read
    off the test suites. *)
Inductive GoalPayload :=
| Added (objective : string)
        (successCriteria scopeIn scopeOut boundaries : list string)
        (status : GoalStatus) (context : PlanningContext)
| Started (status : GoalStatus) (by_ at_ expires : option string)
| Paused (status : GoalStatus) (reason : string) (note : option string)
| Resumed (status : GoalStatus) (note : option string) (by_ at_ expires : option string)
| SubmittedForReview (status : GoalStatus) (submittedAt : string)
| Qualified (status : GoalStatus) (qualifiedAt : string)
| Completed (status : GoalStatus)
| WasReset (status : GoalStatus).

Definition payload_status (p : GoalPayload) : GoalStatus :=
  match p with
  | Added _ _ _ _ _ s _ | Started s _ _ _ | Paused s _ _ | Resumed s _ _ _ _
  | SubmittedForReview s _ | Qualified s _ | Completed s | WasReset s => s
  end.

Record GoalEvent := {
  aggregateId : string;
  version : Z;
  timestamp : string;
  payload : GoalPayload
}.

(** ** The read model: one [goal_views] row per goal *)

Module GoalView.
(** The sixteen columns of [goal_views]; a nullable column is an option. *)
Record Row := {
  goalId : string;
  objective : string;
  successCriteria : string;
  scopeIn : string;
  scopeOut : string;
  boundaries : string;
  status : string;
  version : Z;
  createdAt : string;
  updatedAt : string;
  note : option string;
  progress : string;
  claimedBy : option string;
  claimedAt : option string;
  claimExpiresAt : option string;
  nextGoalId : option string
}.
End GoalView.

(** ** The goal aggregate *)

Module Goal.

(** Modelled from the spec: [Goal.ts] is not among the sources.  The
    state has the fields the tests construct; [apply], [rehydrate] and the
    seven transition methods follow section 4.2. *)
Record GoalState := {
  id : string;
  objective : string;
  successCriteria : list string;
  scopeIn : list string;
  scopeOut : list string;
  boundaries : list string;
  status : GoalStatus;
  version : Z;
  note : option string;
  progress : list string;
  context : PlanningContext
}.

(** Modelled from the spec: "an empty initial state ([status = to-do],
    [version = 0])", as [createEmptyGoalState] of the test suite. *)
Definition empty (id : string) : GoalState :=
  {| id := id; objective := ""; successCriteria := []; scopeIn := [];
     scopeOut := []; boundaries := []; status := TODO; version := 0;
     note := None; progress := []; context := no_context |}.

(** [status = s; version += 1], every other field untouched *)
Definition moved (state : GoalState) (s : GoalStatus) : GoalState :=
  {| id := id state; objective := objective state;
     successCriteria := successCriteria state; scopeIn := scopeIn state;
     scopeOut := scopeOut state; boundaries := boundaries state;
     status := s; version := (version state + 1)%Z;
     note := note state; progress := progress state;
     context := context state |}.

Definition noted (state : GoalState) (n : option string) : GoalState :=
  {| id := id state; objective := objective state;
     successCriteria := successCriteria state; scopeIn := scopeIn state;
     scopeOut := scopeOut state; boundaries := boundaries state;
     status := status state; version := version state;
     note := n; progress := progress state; context := context state |}.

Definition or_kept {A} (given kept : option A) : option A :=
  match given with
  | Some v => Some v
  | None => kept
  end.

Definition embedded (given kept : PlanningContext) : PlanningContext :=
  {| relevantInvariants := or_kept (relevantInvariants given) (relevantInvariants kept);
     relevantGuidelines := or_kept (relevantGuidelines given) (relevantGuidelines kept);
     relevantDependencies := or_kept (relevantDependencies given) (relevantDependencies kept);
     relevantComponents := or_kept (relevantComponents given) (relevantComponents kept);
     architecture := or_kept (architecture given) (architecture kept);
     filesToBeCreated := or_kept (filesToBeCreated given) (filesToBeCreated kept);
     filesToBeChanged := or_kept (filesToBeChanged given) (filesToBeChanged kept) |}.

(** Modelled from the spec: "[apply] is total over all event types: for
    event types irrelevant to a field, that field is left untouched.
    Version increments by exactly 1 per applied event."  The source mutates
    [state] in place; here the new state is returned. *)
Definition apply (state : GoalState) (event : GoalEvent) : GoalState :=
  match payload event with
  | Added o sc si so b s ctx =>
      {| id := id state; objective := o; successCriteria := sc;
         scopeIn := si; scopeOut := so; boundaries := b;
         status := s; version := (version state + 1)%Z;
         note := note state; progress := progress state;
         context := embedded ctx (context state) |}
  | Paused s _ n => noted (moved state s) n
  | Resumed s n _ _ _ => noted (moved state s) n
  | Started s _ _ _ => moved state s
  | SubmittedForReview s _ => moved state s
  | Qualified s _ => moved state s
  | Completed s => moved state s
  | WasReset s => moved state s
  end.

(** Modelled from the spec: "[rehydrate(id, orderedEvents)] folds [apply]
    over an empty initial state ([status = to-do], [version = 0])". *)
Definition rehydrate (id : string) (history : list GoalEvent) : GoalState :=
  fold_left apply history (empty id).

(** Replaying a history through repeated calls of [apply], one event per
    call, as a relation between the state before and the state after. *)
Inductive replays : GoalState -> list GoalEvent -> GoalState -> Prop :=
| replays_done state : replays state [] state
| replays_next state event rest final :
    replays (apply state event) rest final ->
    replays state (event :: rest) final.

(** *** Transitions (the table of section 4.2) *)

Inductive Transition :=
| Start | Pause | Resume | SubmitForReview | Qualify | Complete | Reset.

(** Modelled from the spec: column "From". *)
Definition valid_from (t : Transition) : list GoalStatus :=
  match t with
  | Start => [TODO]
  | Pause => [DOING; BLOCKED]
  | Resume => [PAUSED]
  | SubmitForReview => [DOING; BLOCKED]
  | Qualify => [INREVIEW]
  | Complete => [QUALIFIED]
  | Reset => [TODO; DOING; BLOCKED; PAUSED; INREVIEW; QUALIFIED]
  end.

(** Modelled from the spec: column "To". *)
Definition target (t : Transition) : GoalStatus :=
  match t with
  | Start => DOING
  | Pause => PAUSED
  | Resume => DOING
  | SubmitForReview => INREVIEW
  | Qualify => QUALIFIED
  | Complete => COMPLETED
  | Reset => TODO
  end.

(** Modelled from the spec: column "Guard", the part on claims. *)
Definition owner_guarded (t : Transition) : bool :=
  match t with
  | Pause | SubmitForReview | Qualify | Complete | Reset => true
  | Start | Resume => false
  end.

(** Modelled from the spec: the message of an illegal transition, "naming
    the illegal status". *)
Definition illegal_template (t : Transition) : Template :=
  match t with
  | Start => GoalErrorMessages.CANNOT_START_IN_STATUS
  | Pause => GoalErrorMessages.CANNOT_PAUSE_IN_STATUS
  | Resume => GoalErrorMessages.CANNOT_RESUME_IN_STATUS
  | SubmitForReview => GoalErrorMessages.CANNOT_SUBMIT_FOR_REVIEW_IN_STATUS
  | Qualify => GoalErrorMessages.CANNOT_QUALIFY_IN_STATUS
  | Complete => GoalErrorMessages.CANNOT_COMPLETE_IN_STATUS
  | Reset => GoalErrorMessages.CANNOT_RESET_IN_STATUS
  end.

End Goal.

(** ** Validation rules *)

Record ValidationResult := {
  isValid : bool;
  errors : list string
}.

Module CanSubmitForReviewRule.
(** [CanSubmitForReviewRule.validate] *)
Definition validate (state : Goal.GoalState) : ValidationResult :=
  let validStatuses := [DOING; BLOCKED] in
  let isValid := includes validStatuses (Goal.status state) in
  {| isValid := isValid;
     errors :=
       if isValid then []
       else [formatErrorMessage
               GoalErrorMessages.CANNOT_SUBMIT_FOR_REVIEW_IN_STATUS
               [("status", status_text (Goal.status state))]] |}.
End CanSubmitForReviewRule.

(** ** SqliteGoalQualifiedProjector *)

Module SqliteGoalQualifiedProjector.

(** The [SET] list of the statement, on one row. *)
Definition qualified_row (event : GoalEvent) (r : GoalView.Row) : GoalView.Row :=
  {| GoalView.goalId := GoalView.goalId r;
     GoalView.objective := GoalView.objective r;
     GoalView.successCriteria := GoalView.successCriteria r;
     GoalView.scopeIn := GoalView.scopeIn r;
     GoalView.scopeOut := GoalView.scopeOut r;
     GoalView.boundaries := GoalView.boundaries r;
     GoalView.status := status_text (payload_status (payload event));
     GoalView.version := version event;
     GoalView.createdAt := GoalView.createdAt r;
     GoalView.updatedAt := timestamp event;
     GoalView.note := GoalView.note r;
     GoalView.progress := GoalView.progress r;
     GoalView.claimedBy := None;
     GoalView.claimedAt := None;
     GoalView.claimExpiresAt := None;
     GoalView.nextGoalId := GoalView.nextGoalId r |}.

(** [applyGoalQualified]: [UPDATE goal_views SET ... WHERE goalId = ?] *)
Definition applyGoalQualified (event : GoalEvent) (db : list GoalView.Row) : list GoalView.Row :=
  map (fun r => if String.eqb (GoalView.goalId r) (aggregateId event)
                then qualified_row event r else r) db.

(** [findById], before [mapRowToView] *)
Definition findById (id : string) (db : list GoalView.Row) : option GoalView.Row :=
  List.find (fun r => String.eqb (GoalView.goalId r) id) db.
End SqliteGoalQualifiedProjector.

(** [GoalQualifiedEventHandler.handle]: the subscriber of qualified events
    hands the event to the projector.  The projectors of the other event
    types are not among the sources, so the rows they would update stay as
    they are here. *)
Definition deliver (event : GoalEvent) (db : list GoalView.Row) : list GoalView.Row :=
  match payload event with
  | Qualified _ _ => SqliteGoalQualifiedProjector.applyGoalQualified event db
  | _ => db
  end.

(** ** The world a command runs in *)

(** Which persistence ports are out of order. *)
Record Faults := {
  appendFails : bool;
  claimStoreFails : bool;
  publishFails : bool
}.

Definition no_faults : Faults :=
  {| appendFails := false; claimStoreFails := false; publishFails := false |}.

(** What a command did to the ports, in the order it did it. *)
Inductive Effect :=
| Appended (event : GoalEvent)
| ClaimSet (claim : GoalClaim)
| ClaimReleased (goalId : string)
| Published (event : GoalEvent).

Record World := {
  clock : nat -> string;            (* the successive answers of [IClock.nowIso] *)
  ticks : nat;                      (* how many answers were taken *)
  workerId : WorkerId;              (* [IWorkerIdentityReader.workerId] *)
  claimDurationMinutes : Z;         (* [settings.claims.claimDurationMinutes] *)
  claims : gmap string GoalClaim;   (* the [IGoalClaimStore] *)
  eventLog : list GoalEvent;        (* the event store, oldest first *)
  goal_views : list GoalView.Row;   (* the read model *)
  published : list GoalEvent;       (* what the event bus delivered *)
  faults : Faults;
  trace : list Effect               (* oldest first *)
}.

Definition ticked (w : World) : World :=
  {| clock := clock w; ticks := S (ticks w); workerId := workerId w;
     claimDurationMinutes := claimDurationMinutes w; claims := claims w;
     eventLog := eventLog w; goal_views := goal_views w;
     published := published w; faults := faults w; trace := trace w |}.

Definition with_claims (m : gmap string GoalClaim) (did : Effect) (w : World) : World :=
  {| clock := clock w; ticks := ticks w; workerId := workerId w;
     claimDurationMinutes := claimDurationMinutes w; claims := m;
     eventLog := eventLog w; goal_views := goal_views w;
     published := published w; faults := faults w; trace := trace w ++ [did] |}.

Definition with_eventLog (l : list GoalEvent) (did : Effect) (w : World) : World :=
  {| clock := clock w; ticks := ticks w; workerId := workerId w;
     claimDurationMinutes := claimDurationMinutes w; claims := claims w;
     eventLog := l; goal_views := goal_views w;
     published := published w; faults := faults w; trace := trace w ++ [did] |}.

(** The bus hands the event to its subscribers and keeps what it delivered. *)
Definition delivered (event : GoalEvent) (w : World) : World :=
  {| clock := clock w; ticks := ticks w; workerId := workerId w;
     claimDurationMinutes := claimDurationMinutes w; claims := claims w;
     eventLog := eventLog w; goal_views := deliver event (goal_views w);
     published := published w ++ [event]; faults := faults w;
     trace := trace w ++ [Published event] |}.

(** *** Commands *)

Inductive Outcome (A : Type) :=
| Returned (a : A)
| Thrown (e : Exn).

Arguments Returned {A} a.
Arguments Thrown {A} e.

Definition Cmd (A : Type) : Type := World -> Outcome A * World.

Definition ret {A} (a : A) : Cmd A := fun w => (Returned a, w).

Definition throw {A} (e : Exn) : Cmd A := fun w => (Thrown e, w).

Definition bind {A B} (m : Cmd A) (k : A -> Cmd B) : Cmd B :=
  fun w =>
    match m w with
    | (Returned a, w') => k a w'
    | (Thrown e, w') => (Thrown e, w')
    end.

Declare Scope cmd_scope.
Delimit Scope cmd_scope with cmd.
Notation "x <- m ;; k" := (bind m (fun x => k))
  (at level 100, m at next level, right associativity) : cmd_scope.
Notation "m ;;; k" := (bind m (fun _ => k))
  (at level 100, right associativity) : cmd_scope.
Local Open Scope cmd_scope.

Definition outcome {A} (m : Cmd A) (w : World) : Outcome A := fst (m w).
Definition after {A} (m : Cmd A) (w : World) : World := snd (m w).

(** What the command added to the trace. *)
Definition did {A} (m : Cmd A) (w : World) : list Effect :=
  drop (length (trace w)) (trace (after m w)).

(** *** Ports *)

(** [IClock.nowIso()] *)
Definition nowIso : Cmd string :=
  fun w => (Returned (clock w (ticks w)), ticked w).

(** [IWorkerIdentityReader.workerId] *)
Definition the_workerId : Cmd WorkerId :=
  fun w => (Returned (workerId w), w).

(** [ISettingsReader.read()], the one setting the handlers use *)
Definition read_claimDurationMinutes : Cmd Z :=
  fun w => (Returned (claimDurationMinutes w), w).

Module IGoalClaimStore.
Definition getClaim (goalId : string) : Cmd (option GoalClaim) :=
  fun w => (Returned (claims w !! goalId), w).

Definition setClaim (claim : GoalClaim) : Cmd unit :=
  fun w =>
    if claimStoreFails (faults w) then (Thrown (StorageFailure "claims"), w)
    else (Returned tt,
          with_claims (<[goalId claim := claim]> (claims w)) (ClaimSet claim) w).

Definition releaseClaim (goalId : string) : Cmd unit :=
  fun w =>
    if claimStoreFails (faults w) then (Thrown (StorageFailure "claims"), w)
    else (Returned tt,
          with_claims (delete goalId (claims w)) (ClaimReleased goalId) w).
End IGoalClaimStore.

Module EventStore.
(** [IGoal...EventWriter.append] *)
Definition append (event : GoalEvent) : Cmd unit :=
  fun w =>
    if appendFails (faults w) then (Thrown (StorageFailure "events"), w)
    else (Returned tt, with_eventLog (eventLog w ++ [event]) (Appended event) w).

(** [IGoal...EventReader.readStream] *)
Definition readStream (id : string) : Cmd (list GoalEvent) :=
  fun w =>
    (Returned (List.filter (fun e => String.eqb (aggregateId e) id) (eventLog w)), w).
End EventStore.

Module EventBus.
Definition publish (event : GoalEvent) : Cmd unit :=
  fun w =>
    if publishFails (faults w) then (Thrown (StorageFailure "bus"), w)
    else (Returned tt, delivered event w).
End EventBus.

Module GoalReader.
(** [findById]: [SELECT * FROM goal_views WHERE goalId = ?] then [.get] *)
Definition findById (goalId : string) : Cmd (option GoalView.Row) :=
  fun w =>
    (Returned (List.find (fun r => String.eqb (GoalView.goalId r) goalId) (goal_views w)), w).
End GoalReader.

(** ** GoalClaimPolicy *)

Inductive ClaimRejectionReason := CLAIMED_BY_ANOTHER_WORKER.

Inductive ClaimValidationResult :=
| Allowed
| Rejected (reason : ClaimRejectionReason) (existingClaim : GoalClaim).

Module GoalClaimPolicy.
Section WithDates.
Context `{JSDate}.

Definition canClaim (goalId : string) (workerId : WorkerId) : Cmd ClaimValidationResult :=
  existingClaim <- IGoalClaimStore.getClaim goalId ;;
  match existingClaim with
  | None => ret Allowed
  | Some existingClaim =>
      nowIso <- nowIso ;;
      let now := new_Date nowIso in
      let expiresAt := new_Date (claimExpiresAt existingClaim) in
      if Date_ge now expiresAt then ret Allowed
      else if String.eqb (claimedBy existingClaim) workerId then ret Allowed
      else ret (Rejected CLAIMED_BY_ANOTHER_WORKER existingClaim)
  end.

(** [expiresAt.toISOString()] throws on an Invalid Date. *)
Definition toISOString (d : Date) : Cmd string :=
  match d with
  | Some t => ret (Date_format t)
  | None => throw RangeError
  end.

Definition prepareClaim (goalId : string) (workerId : WorkerId) (durationMs : Z) : Cmd GoalClaim :=
  nowIso <- nowIso ;;
  let now := new_Date nowIso in
  let expiresAt := Date_plus now durationMs in
  expires <- toISOString expiresAt ;;
  ret {| goalId := goalId; claimedBy := workerId;
         claimedAt := nowIso; claimExpiresAt := expires |}.

Definition storeClaim (claim : GoalClaim) : Cmd unit :=
  IGoalClaimStore.setClaim claim.

Definition createClaim (goalId : string) (workerId : WorkerId) (durationMs : Z) : Cmd GoalClaim :=
  claim <- prepareClaim goalId workerId durationMs ;;
  (IGoalClaimStore.setClaim claim ;;;
   ret claim).

Definition prepareRefreshedClaim (goalId : string) (workerId : WorkerId) (durationMs : Z) : Cmd GoalClaim :=
  existingClaim <- IGoalClaimStore.getClaim goalId ;;
  nowIso <- nowIso ;;
  let now := new_Date nowIso in
  let expiresAt := Date_plus now durationMs in
  expires <- toISOString expiresAt ;;
  ret {| goalId := goalId; claimedBy := workerId;
         claimedAt := match existingClaim with
                      | Some c => claimedAt c
                      | None => nowIso
                      end;
         claimExpiresAt := expires |}.

Definition refreshClaim (goalId : string) (workerId : WorkerId) (durationMs : Z) : Cmd GoalClaim :=
  claim <- prepareRefreshedClaim goalId workerId durationMs ;;
  (IGoalClaimStore.setClaim claim ;;;
   ret claim).

Definition releaseClaim (goalId : string) : Cmd unit :=
  IGoalClaimStore.releaseClaim goalId.

End WithDates.
End GoalClaimPolicy.

(** ** Transition methods of the aggregate *)

Module GoalMethods.
Import Goal.

(** The claim fields a started or resumed event embeds. *)
Record ClaimFields := {
  by_ : WorkerId;
  at_ : string;
  expires_ : string
}.

(** Modelled from the spec: "(a) a guard evaluated against current
    in-memory state, raising a domain error naming the illegal status if
    violated".  The guard of [submitForReview] is the rule of the sources;
    the other six read the "From" column. *)
Definition guard (t : Transition) (state : GoalState) : Cmd unit :=
  match t with
  | SubmitForReview =>
      let result := CanSubmitForReviewRule.validate state in
      if isValid result then ret tt
      else throw (Error (String.concat ", " (errors result)))
  | _ =>
      if includes (valid_from t) (status state) then ret tt
      else throw (Error (formatErrorMessage (illegal_template t)
                           [("status", status_text (status state))]))
  end.

(** Modelled from the spec: "(b) construction of a new event whose payload
    carries the resulting status and, where relevant, claim/lease fields or
    free-text notes"; its version is the one the aggregate reaches, its
    timestamp the time of the call. *)
Definition emit (state : GoalState) (make : string -> GoalPayload) : Cmd GoalEvent :=
  recordedAt <- nowIso ;;
  ret (Build_GoalEvent (id state) (version state + 1)%Z recordedAt (make recordedAt)).

(** Modelled from the spec: the seven transition methods of the aggregate,
    each its guard and then its event; none mutates the state. *)
Definition start (state : GoalState) (claim : ClaimFields) : Cmd GoalEvent :=
  guard Start state ;;;
  emit state (fun _ => Started (target Start)
                         (Some (by_ claim)) (Some (at_ claim)) (Some (expires_ claim))).

Definition pause (state : GoalState) (reason : string) (note : option string) : Cmd GoalEvent :=
  guard Pause state ;;;
  emit state (fun _ => Paused (target Pause) reason note).

Definition resume (state : GoalState) (note : option string) (claim : ClaimFields) : Cmd GoalEvent :=
  guard Resume state ;;;
  emit state (fun _ => Resumed (target Resume) note
                         (Some (by_ claim)) (Some (at_ claim)) (Some (expires_ claim))).

Definition submitForReview (state : GoalState) : Cmd GoalEvent :=
  guard SubmitForReview state ;;;
  emit state (fun recordedAt => SubmittedForReview (target SubmitForReview) recordedAt).

Definition qualify (state : GoalState) : Cmd GoalEvent :=
  guard Qualify state ;;;
  emit state (fun recordedAt => Qualified (target Qualify) recordedAt).

Definition complete (state : GoalState) : Cmd GoalEvent :=
  guard Complete state ;;;
  emit state (fun _ => Completed (target Complete)).

Definition reset (state : GoalState) : Cmd GoalEvent :=
  guard Reset state ;;;
  emit state (fun _ => WasReset (target Reset)).

(** Any of the seven, with neutral arguments where a method takes some. *)
Definition invoke (t : Transition) (state : GoalState) (claim : ClaimFields) : Cmd GoalEvent :=
  match t with
  | Start => start state claim
  | Pause => pause state "Other" None
  | Resume => resume state None claim
  | SubmitForReview => submitForReview state
  | Qualify => qualify state
  | Complete => complete state
  | Reset => reset state
  end.
End GoalMethods.

(** ** Command handlers *)

(** Steps 1 and 2 of every handler read the same way in the sources. *)
Definition goal_not_found (goalId : string) : Exn :=
  Error (formatErrorMessage GoalErrorMessages.GOAL_NOT_FOUND [("id", goalId)]).

Definition claimed_by_another_worker (existingClaim : GoalClaim) : Exn :=
  Error (formatErrorMessage GoalErrorMessages.GOAL_CLAIMED_BY_ANOTHER_WORKER
           [("expiresAt", claimExpiresAt existingClaim)]).

Section Handlers.
Context `{JSDate}.

(** [StartGoalCommandHandler.execute] *)
Definition StartGoalCommandHandler_execute (goalId : string) : Cmd string :=
  view <- GoalReader.findById goalId ;;
  match view with
  | None => throw (goal_not_found goalId)
  | Some _ =>
      workerId <- the_workerId ;;
      claimValidation <- GoalClaimPolicy.canClaim goalId workerId ;;
      match claimValidation with
      | Rejected _ existingClaim => throw (claimed_by_another_worker existingClaim)
      | Allowed =>
          history <- EventStore.readStream goalId ;;
          let goal := Goal.rehydrate goalId history in
          minutes <- read_claimDurationMinutes ;;
          let claimDurationMs := (minutes * 60 * 1000)%Z in
          claim <- GoalClaimPolicy.prepareClaim goalId workerId claimDurationMs ;;
          event <- GoalMethods.start goal
                     {| GoalMethods.by_ := claimedBy claim;
                        GoalMethods.at_ := claimedAt claim;
                        GoalMethods.expires_ := claimExpiresAt claim |} ;;
          (EventStore.append event ;;;
           GoalClaimPolicy.storeClaim claim ;;;
           EventBus.publish event ;;;
           ret goalId)
      end
  end.

(** [ResumeGoalCommandHandler.execute] *)
Definition ResumeGoalCommandHandler_execute (goalId : string) (note : option string) : Cmd string :=
  view <- GoalReader.findById goalId ;;
  match view with
  | None => throw (goal_not_found goalId)
  | Some _ =>
      workerId <- the_workerId ;;
      claimValidation <- GoalClaimPolicy.canClaim goalId workerId ;;
      match claimValidation with
      | Rejected _ existingClaim => throw (claimed_by_another_worker existingClaim)
      | Allowed =>
          history <- EventStore.readStream goalId ;;
          let goal := Goal.rehydrate goalId history in
          minutes <- read_claimDurationMinutes ;;
          let claimDurationMs := (minutes * 60 * 1000)%Z in
          claim <- GoalClaimPolicy.prepareRefreshedClaim goalId workerId claimDurationMs ;;
          event <- GoalMethods.resume goal note
                     {| GoalMethods.by_ := claimedBy claim;
                        GoalMethods.at_ := claimedAt claim;
                        GoalMethods.expires_ := claimExpiresAt claim |} ;;
          (EventStore.append event ;;;
           GoalClaimPolicy.storeClaim claim ;;;
           EventBus.publish event ;;;
           ret goalId)
      end
  end.

(** [CompleteGoalCommandHandler.execute] *)
Definition CompleteGoalCommandHandler_execute (goalId : string) : Cmd string :=
  view <- GoalReader.findById goalId ;;
  match view with
  | None => throw (goal_not_found goalId)
  | Some _ =>
      workerId <- the_workerId ;;
      claimValidation <- GoalClaimPolicy.canClaim goalId workerId ;;
      match claimValidation with
      | Rejected _ existingClaim => throw (claimed_by_another_worker existingClaim)
      | Allowed =>
          history <- EventStore.readStream goalId ;;
          let goal := Goal.rehydrate goalId history in
          event <- GoalMethods.complete goal ;;
          (EventStore.append event ;;;
           GoalClaimPolicy.releaseClaim goalId ;;;
           EventBus.publish event ;;;
           ret goalId)
      end
  end.

(** [ResetGoalCommandHandler.execute] *)
Definition ResetGoalCommandHandler_execute (goalId : string) : Cmd string :=
  view <- GoalReader.findById goalId ;;
  match view with
  | None => throw (goal_not_found goalId)
  | Some _ =>
      workerId <- the_workerId ;;
      claimValidation <- GoalClaimPolicy.canClaim goalId workerId ;;
      match claimValidation with
      | Rejected _ existingClaim => throw (claimed_by_another_worker existingClaim)
      | Allowed =>
          history <- EventStore.readStream goalId ;;
          let goal := Goal.rehydrate goalId history in
          event <- GoalMethods.reset goal ;;
          (EventStore.append event ;;;
           GoalClaimPolicy.releaseClaim goalId ;;;
           EventBus.publish event ;;;
           ret goalId)
      end
  end.

(** Modelled from the spec: the handlers of [pause], [submitForReview] and
    [qualify] are not among the sources.  Section 4.4: "each handler
    follows an identical orchestration skeleton", steps 1, 2, 3, 5, 6 and
    8; the spec names no claim-store step for these three. *)
Definition skeleton (goalId : string) (transition : Goal.GoalState -> Cmd GoalEvent) : Cmd string :=
  view <- GoalReader.findById goalId ;;
  match view with
  | None => throw (goal_not_found goalId)
  | Some _ =>
      workerId <- the_workerId ;;
      claimValidation <- GoalClaimPolicy.canClaim goalId workerId ;;
      match claimValidation with
      | Rejected _ existingClaim => throw (claimed_by_another_worker existingClaim)
      | Allowed =>
          history <- EventStore.readStream goalId ;;
          let goal := Goal.rehydrate goalId history in
          event <- transition goal ;;
          (EventStore.append event ;;;
           EventBus.publish event ;;;
           ret goalId)
      end
  end.

Definition PauseGoalCommandHandler_execute (goalId : string) (reason : string) (note : option string) : Cmd string :=
  skeleton goalId (fun goal => GoalMethods.pause goal reason note).

Definition SubmitGoalForReviewCommandHandler_execute (goalId : string) : Cmd string :=
  skeleton goalId GoalMethods.submitForReview.

Definition QualifyGoalCommandHandler_execute (goalId : string) : Cmd string :=
  skeleton goalId GoalMethods.qualify.

(** The command of each transition whose guard asks for the caller's claim. *)
Definition owner_command (t : Goal.Transition) (goalId : string) : Cmd string :=
  match t with
  | Goal.Pause => PauseGoalCommandHandler_execute goalId "Other" None
  | Goal.SubmitForReview => SubmitGoalForReviewCommandHandler_execute goalId
  | Goal.Qualify => QualifyGoalCommandHandler_execute goalId
  | Goal.Complete => CompleteGoalCommandHandler_execute goalId
  | Goal.Reset => ResetGoalCommandHandler_execute goalId
  | Goal.Start => StartGoalCommandHandler_execute goalId
  | Goal.Resume => ResumeGoalCommandHandler_execute goalId None
  end.

End Handlers.

(** ** Controllers *)

Record QualifyGoalResponse := {
  qualified_goalId : string;
  qualified_objective : string;
  qualified_status : string;
  qualified_nextGoalId : option string
}.

Record NextGoal := {
  next_goalId : string;
  next_objective : string;
  next_status : string
}.

Record CompleteGoalResponse := {
  completed_goalId : string;
  completed_objective : string;
  completed_status : string;
  completed_nextGoal : option NextGoal
}.

Section Controllers.
Context `{JSDate}.

(** [QualifyGoalController.handle] *)
Definition QualifyGoalController_handle (goalId : string) : Cmd QualifyGoalResponse :=
  workerId <- the_workerId ;;
  claimValidation <- GoalClaimPolicy.canClaim goalId workerId ;;
  match claimValidation with
  | Rejected _ existingClaim => throw (claimed_by_another_worker existingClaim)
  | Allowed =>
      goalView <- GoalReader.findById goalId ;;
      match goalView with
      | None => throw (goal_not_found goalId)
      | Some goalView =>
          if negb (String.eqb (GoalView.status goalView) (status_text INREVIEW)) then
            throw (Error (formatErrorMessage GoalErrorMessages.CANNOT_QUALIFY_IN_STATUS
                            [("status", GoalView.status goalView)]))
          else
            (QualifyGoalCommandHandler_execute goalId ;;;
             updatedGoalView <- GoalReader.findById goalId ;;
             match updatedGoalView with
             | None => throw (Error ("Goal not found after qualification: " ++ goalId))
             | Some updated =>
                 ret {| qualified_goalId := goalId;
                        qualified_objective := GoalView.objective updated;
                        qualified_status := GoalView.status updated;
                        qualified_nextGoalId := GoalView.nextGoalId updated |}
             end)
      end
  end.

(** [if (goalView.nextGoalId)]: a missing or empty id is falsy *)
Definition truthy (s : option string) : option string :=
  match s with
  | Some "" => None
  | other => other
  end.

(** [CompleteGoalController.handle] *)
Definition CompleteGoalController_handle (goalId : string) : Cmd CompleteGoalResponse :=
  workerId <- the_workerId ;;
  claimValidation <- GoalClaimPolicy.canClaim goalId workerId ;;
  match claimValidation with
  | Rejected _ existingClaim => throw (claimed_by_another_worker existingClaim)
  | Allowed =>
      (CompleteGoalCommandHandler_execute goalId ;;;
       goalView <- GoalReader.findById goalId ;;
       match goalView with
       | None => throw (Error ("Goal not found after completion: " ++ goalId))
       | Some goalView =>
           nextGoal <-
             match truthy (GoalView.nextGoalId goalView) with
             | Some nextGoalId =>
                 nextGoalView <- GoalReader.findById nextGoalId ;;
                 ret (match nextGoalView with
                      | Some n => Some {| next_goalId := GoalView.goalId n;
                                          next_objective := GoalView.objective n;
                                          next_status := GoalView.status n |}
                      | None => None
                      end)
             | None => ret None
             end ;;
           ret {| completed_goalId := goalId;
                  completed_objective := GoalView.objective goalView;
                  completed_status := GoalView.status goalView;
                  completed_nextGoal := nextGoal |}
       end)
  end.

(** [ReviewGoalController.handle], up to the response: the query handler
    that gathers the criteria runs after every step modelled here. *)
Definition ReviewGoalController_handle (goalId : string) : Cmd GoalView.Row :=
  workerId <- the_workerId ;;
  claimValidation <- GoalClaimPolicy.canClaim goalId workerId ;;
  match claimValidation with
  | Rejected _ existingClaim => throw (claimed_by_another_worker existingClaim)
  | Allowed =>
      goalView <- GoalReader.findById goalId ;;
      match goalView with
      | None => throw (goal_not_found goalId)
      | Some _ =>
          (SubmitGoalForReviewCommandHandler_execute goalId ;;;
           updatedGoalView <- GoalReader.findById goalId ;;
           match updatedGoalView with
           | None => throw (Error ("Goal not found after review submission: " ++ goalId))
           | Some updated => ret updated
           end)
      end
  end.

End Controllers.

(** ** FsGoalClaimStore *)

Module FsGoalClaimStore.

(** [ClaimStoreData] *)
Record ClaimStoreData := {
  claims : gmap string GoalClaim
}.

(** [JSON.parse(content) as ClaimStoreData] and [JSON.stringify(data, null, 2)].
    [None] is the [SyntaxError] of text that is not JSON; the cast is
    unchecked in the source, so documents of another shape are outside
    this typed reading. *)
Class JSON := {
  JSON_parse : string -> option ClaimStoreData;
  JSON_stringify : ClaimStoreData -> string
}.

(** What is at [claimsFilePath]. *)
Inductive Path :=
| NoFile
| Unreadable                  (* exists, but reading or writing it fails *)
| Content (text : string).

Definition existsSync (p : Path) : bool :=
  match p with
  | NoFile => false
  | _ => true
  end.

(** [None] when [readFileSync] throws *)
Definition readFileSync (p : Path) : option string :=
  match p with
  | Content text => Some text
  | _ => None
  end.

Section WithJSON.
Context `{JSON}.

(** [loadData]: whatever is thrown inside [try] is swallowed *)
Definition loadData (p : Path) : ClaimStoreData :=
  let tried :=
    if existsSync p then
      match readFileSync p with
      | Some content => JSON_parse content
      | None => None
      end
    else None in
  match tried with
  | Some data => data
  | None => {| claims := ∅ |}
  end.

(** [saveData] *)
Definition saveData (data : ClaimStoreData) (p : Path) : Outcome unit * Path :=
  match p with
  | Unreadable => (Thrown (StorageFailure "claims.json"), p)
  | _ => (Returned tt, Content (JSON_stringify data))
  end.

Definition getClaim (goalId : string) (p : Path) : option GoalClaim :=
  let data := loadData p in
  claims data !! goalId.

Definition setClaim (claim : GoalClaim) (p : Path) : Outcome unit * Path :=
  let data := loadData p in
  saveData {| claims := <[goalId claim := claim]> (claims data) |} p.

Definition releaseClaim (goalId : string) (p : Path) : Outcome unit * Path :=
  let data := loadData p in
  saveData {| claims := delete goalId (claims data) |} p.

End WithJSON.
End FsGoalClaimStore.

(** ** A concrete reading of timestamps

    The form [toISOString] prints, [YYYY-MM-DDTHH:mm:ss.sssZ], for the years
    0000 to 9999, and [Invalid Date] for any other text.  It runs the
    definitions above on the timestamps of the test suites. *)

Module UTC.
Local Open Scope Z_scope.

(** Days since 1970-01-01 of a civil date of the Gregorian calendar. *)
Definition days_from_civil (y m d : Z) : Z :=
  let y' := if m <=? 2 then y - 1 else y in
  let era := y' / 400 in
  let yoe := y' - era * 400 in
  let mp := (m + 9) mod 12 in
  let doy := (153 * mp + 2) / 5 + d - 1 in
  let doe := yoe * 365 + yoe / 4 - yoe / 100 + doy in
  era * 146097 + doe - 719468.

Definition civil_from_days (z : Z) : Z * Z * Z :=
  let z := z + 719468 in
  let era := z / 146097 in
  let doe := z - era * 146097 in
  let yoe := (doe - doe / 1460 + doe / 36524 - doe / 146096) / 365 in
  let doy := doe - (365 * yoe + yoe / 4 - yoe / 100) in
  let mp := (5 * doy + 2) / 153 in
  let d := doy - (153 * mp + 2) / 5 + 1 in
  let m := if mp <? 10 then mp + 3 else mp - 9 in
  let y := yoe + era * 400 in
  (if m <=? 2 then y + 1 else y, m, d).

Definition ms_per_day : Z := 86400000.

Definition digit (n : Z) : ascii := ascii_of_nat (48 + Z.to_nat (n mod 10)).

Fixpoint digits (width : nat) (n : Z) (tail : string) : string :=
  match width with
  | O => tail
  | S w => digits w (n / 10) (String (digit n) tail)
  end.

Definition format (t : Z) : string :=
  let day := t / ms_per_day in
  let ms := t mod ms_per_day in
  let '(y, m, d) := civil_from_days day in
  digits 4 y "" ++ "-" ++ digits 2 m "" ++ "-" ++ digits 2 d "" ++ "T"
    ++ digits 2 (ms / 3600000) "" ++ ":" ++ digits 2 (ms / 60000 mod 60) "" ++ ":"
    ++ digits 2 (ms / 1000 mod 60) "" ++ "." ++ digits 3 (ms mod 1000) "" ++ "Z".

Fixpoint number (width : nat) (acc : Z) (l : list ascii) : option (Z * list ascii) :=
  match width with
  | O => Some (acc, l)
  | S w =>
      match l with
      | c :: rest =>
          let n := Z.of_nat (nat_of_ascii c) in
          if (48 <=? n) && (n <=? 57) then number w (acc * 10 + (n - 48)) rest
          else None
      | [] => None
      end
  end.

Definition expect (c : ascii) (l : list ascii) : option (list ascii) :=
  match l with
  | x :: rest => if Ascii.eqb x c then Some rest else None
  | [] => None
  end.

Definition parse (text : string) : option Z :=
  '(y, l) ← number 4 0 (list_ascii_of_string text);
  l ← expect "-" l;
  '(m, l) ← number 2 0 l;
  l ← expect "-" l;
  '(d, l) ← number 2 0 l;
  l ← expect "T" l;
  '(hh, l) ← number 2 0 l;
  l ← expect ":" l;
  '(mm, l) ← number 2 0 l;
  l ← expect ":" l;
  '(ss, l) ← number 2 0 l;
  l ← expect "." l;
  '(ms, l) ← number 3 0 l;
  l ← expect "Z" l;
  let day := days_from_civil y m d in
  if (1 <=? m) && (m <=? 12) && (1 <=? d)
     && bool_decide (civil_from_days day = (y, m, d))
     && (hh <=? 23) && (mm <=? 59) && (ss <=? 59)
     && bool_decide (l = [])
  then Some (day * ms_per_day + hh * 3600000 + mm * 60000 + ss * 1000 + ms)
  else None.

#[global] Instance dates : JSDate :=
  {| Date_parse := parse; Date_format := format |}.
End UTC.

(** ** A concrete reading of [claims.json]

    The documents [saveData] writes: an object [claims] of claims keyed by
    goal id, every value a string free of control characters.  It runs the
    store on the files of its test suite. *)

Module ClaimsJson.
Import FsGoalClaimStore.

Definition quote : ascii := ascii_of_nat 34.
Definition backslash : ascii := ascii_of_nat 92.
Definition newline : string := String (ascii_of_nat 10) "".

Inductive Token :=
| LBrace | RBrace | Colon | Comma
| Str (s : string).

Inductive Lexing :=
| Between
| InString (seen : list ascii)
| Escaped (seen : list ascii).

Definition whitespace (c : ascii) : bool :=
  let n := nat_of_ascii c in
  Nat.eqb n 32 || Nat.eqb n 10 || Nat.eqb n 13 || Nat.eqb n 9.

Fixpoint lex (st : Lexing) (l : list ascii) (out : list Token) : option (list Token) :=
  match l with
  | [] =>
      match st with
      | Between => Some (rev out)
      | _ => None
      end
  | c :: rest =>
      match st with
      | Between =>
          if whitespace c then lex Between rest out
          else if Ascii.eqb c "{" then lex Between rest (LBrace :: out)
          else if Ascii.eqb c "}" then lex Between rest (RBrace :: out)
          else if Ascii.eqb c ":" then lex Between rest (Colon :: out)
          else if Ascii.eqb c "," then lex Between rest (Comma :: out)
          else if Ascii.eqb c quote then lex (InString []) rest out
          else None
      | InString seen =>
          if Ascii.eqb c quote
          then lex Between rest (Str (string_of_list_ascii (rev seen)) :: out)
          else if Ascii.eqb c backslash then lex (Escaped seen) rest out
          else if Nat.ltb (nat_of_ascii c) 32 then None
          else lex (InString (c :: seen)) rest out
      | Escaped seen =>
          if Ascii.eqb c quote || Ascii.eqb c backslash
          then lex (InString (c :: seen)) rest out
          else None
      end
  end.

(** The members of one claim object, up to its closing brace. *)
Fixpoint members (l : list Token) (seen : list (string * string))
  : option (list (string * string) * list Token) :=
  match l with
  | Str k :: Colon :: Str v :: Comma :: rest => members rest (seen ++ [(k, v)])%list
  | Str k :: Colon :: Str v :: RBrace :: rest => Some ((seen ++ [(k, v)])%list, rest)
  | _ => None
  end.

Definition claim_of (fields : list (string * string)) : option GoalClaim :=
  g ← param fields "goalId";
  b ← param fields "claimedBy";
  a ← param fields "claimedAt";
  e ← param fields "claimExpiresAt";
  Some {| goalId := g; claimedBy := b; claimedAt := a; claimExpiresAt := e |}.

(** The entries of [claims], up to its closing brace. *)
Fixpoint entries (fuel : nat) (l : list Token) (seen : gmap string GoalClaim)
  : option (gmap string GoalClaim * list Token) :=
  match fuel with
  | O => None
  | S fuel =>
      match l with
      | Str key :: Colon :: LBrace :: rest =>
          '(fields, rest) ← members rest [];
          claim ← claim_of fields;
          match rest with
          | Comma :: rest => entries fuel rest (<[key := claim]> seen)
          | RBrace :: rest => Some (<[key := claim]> seen, rest)
          | _ => None
          end
      | _ => None
      end
  end.

Definition parse (text : string) : option ClaimStoreData :=
  tokens ← lex Between (list_ascii_of_string text) [];
  match tokens with
  | LBrace :: Str "claims" :: Colon :: LBrace :: RBrace :: RBrace :: [] =>
      Some {| claims := ∅ |}
  | LBrace :: Str "claims" :: Colon :: LBrace :: rest =>
      '(m, rest) ← entries (length rest) rest ∅;
      match rest with
      | RBrace :: [] => Some {| claims := m |}
      | _ => None
      end
  | _ => None
  end.

Fixpoint escaped (s : string) : string :=
  match s with
  | EmptyString => EmptyString
  | String c rest =>
      if Ascii.eqb c quote || Ascii.eqb c backslash
      then String backslash (String c (escaped rest))
      else String c (escaped rest)
  end.

Definition quoted (s : string) : string :=
  String quote (escaped s) ++ String quote "".

Definition member (indent key value : string) : string :=
  indent ++ quoted key ++ ": " ++ quoted value.

Definition entry (kc : string * GoalClaim) : string :=
  "    " ++ quoted (fst kc) ++ ": {" ++ newline
    ++ member "      " "goalId" (goalId (snd kc)) ++ "," ++ newline
    ++ member "      " "claimedBy" (claimedBy (snd kc)) ++ "," ++ newline
    ++ member "      " "claimedAt" (claimedAt (snd kc)) ++ "," ++ newline
    ++ member "      " "claimExpiresAt" (claimExpiresAt (snd kc)) ++ newline
    ++ "    }".

Definition stringify (data : ClaimStoreData) : string :=
  match map_to_list (claims data) with
  | [] => "{" ++ newline ++ "  " ++ quoted "claims" ++ ": {}" ++ newline ++ "}"
  | l => "{" ++ newline ++ "  " ++ quoted "claims" ++ ": {" ++ newline
           ++ String.concat ("," ++ newline) (map entry l) ++ newline
           ++ "  }" ++ newline ++ "}"
  end.

#[global] Instance json : JSON :=
  {| JSON_parse := parse; JSON_stringify := stringify |}.
End ClaimsJson.

(** ** HostSessionKeyResolver *)

Module HostSessionKeyResolver.

Record SessionKeyPart := {
  source : string;
  value : string
}.

Record HostSessionKeyResult := {
  key : string;
  parts : list SessionKeyPart
}.

(** [createHash("sha256").update(input).digest("hex")] is the engine's. *)
Class SHA256 := {
  sha256_hex : string -> string
}.

(** What the process sees of its host.  [lstart] is the trimmed output of
    the command that asks for the parent's start time, [None] when the
    command fails. *)
Record Host := {
  env : gmap string string;
  ppid : N;
  lstart : option string;
  username : string;
  hostname : string
}.

(** [if (env.NAME)]: a variable that is unset or empty is falsy *)
Definition env_var (e : gmap string string) (name : string) : option string :=
  match e !! name with
  | Some "" => None
  | other => other
  end.

(** [getEnvHostSessionId] *)
Definition getEnvHostSessionId (e : gmap string string) : option SessionKeyPart :=
  match env_var e "VSCODE_IPC_HOOK_CLI" with
  | Some v => Some {| source := "VSCODE_IPC_HOOK_CLI"; value := v |}
  | None =>
  match env_var e "VSCODE_PID" with
  | Some v => Some {| source := "VSCODE_PID"; value := v |}
  | None =>
  match env_var e "WT_SESSION" with
  | Some v => Some {| source := "WT_SESSION"; value := v |}
  | None =>
  match env_var e "ITERM_SESSION_ID" with
  | Some v => Some {| source := "ITERM_SESSION_ID"; value := v |}
  | None =>
  match env_var e "TERM_SESSION_ID" with
  | Some v => Some {| source := "TERM_SESSION_ID"; value := v |}
  | None =>
  match env_var e "TERM_PROGRAM", env_var e "TERM_PROGRAM_VERSION" with
  | Some program, Some version =>
      Some {| source := "TERM_PROGRAM"; value := program ++ ":" ++ version |}
  | _, _ => None
  end end end end end end.

(** [getParentStartTime]: [output || null] *)
Definition getParentStartTime (h : Host) : option string :=
  match lstart h with
  | Some "" => None
  | other => other
  end.

(** The text [hashParts] hashes. *)
Definition hash_input (ps : list SessionKeyPart) : string :=
  String.concat "|" (map (fun p => source p ++ "=" ++ value p) ps).

Definition hashParts `{SHA256} (ps : list SessionKeyPart) : string :=
  sha256_hex (hash_input ps).

(** The parts [resolve] collects. *)
Definition resolve_parts (h : Host) : list SessionKeyPart :=
  match getEnvHostSessionId (env h) with
  | Some envSession => [envSession]
  | None =>
      let parentStartTime :=
        match getParentStartTime h with
        | Some t => t
        | None => "unknown"
        end in
      [ {| source := "PPID"; value := pretty (ppid h) |};
        {| source := "PSTART"; value := parentStartTime |};
        {| source := "USER"; value := username h |};
        {| source := "HOST"; value := hostname h |} ]
  end.

(** [resolve] *)
Definition resolve `{SHA256} (h : Host) : HostSessionKeyResult :=
  let ps := resolve_parts h in
  {| key := hashParts ps; parts := ps |}.

End HostSessionKeyResolver.

(** ** FsWorkerIdentityRegistry *)

Module FsWorkerIdentityRegistry.

Record WorkerRegistryEntry := {
  workerId : string;
  hostSessionKey : string;
  createdAt : string;
  lastSeenAt : string
}.

Record WorkerRegistry := {
  entries : gmap string WorkerRegistryEntry
}.

(** [JSON.parse(content) as WorkerRegistry] and [JSON.stringify(registry, null, 2)];
    [None] is the [SyntaxError]. *)
Class JSON := {
  JSON_parse : string -> option WorkerRegistry;
  JSON_stringify : WorkerRegistry -> string
}.

(** What one resolution draws from its surroundings: the key of the host
    session, the identifier [randomUUID()] would give, and the text of
    [new Date().toISOString()]. *)
Record Drawn := {
  sessionKey : string;
  uuid : string;
  time : string
}.

Section WithJSON.
Context `{JSON}.

(** [loadRegistry] *)
Definition loadRegistry (p : FsGoalClaimStore.Path) : WorkerRegistry :=
  let tried :=
    if FsGoalClaimStore.existsSync p then
      match FsGoalClaimStore.readFileSync p with
      | Some content => JSON_parse content
      | None => None
      end
    else None in
  match tried with
  | Some registry => registry
  | None => {| entries := ∅ |}
  end.

(** [saveRegistry] *)
Definition saveRegistry (registry : WorkerRegistry) (p : FsGoalClaimStore.Path)
  : Outcome unit * FsGoalClaimStore.Path :=
  match p with
  | FsGoalClaimStore.Unreadable => (Thrown (StorageFailure "workers.json"), p)
  | _ => (Returned tt, FsGoalClaimStore.Content (JSON_stringify registry))
  end.

(** [resolveWorkerId] *)
Definition resolveWorkerId (d : Drawn) (p : FsGoalClaimStore.Path)
  : Outcome WorkerId * FsGoalClaimStore.Path :=
  let hostSessionKey := sessionKey d in
  let registry := loadRegistry p in
  match entries registry !! hostSessionKey with
  | Some existingEntry =>
      let seen := {| workerId := workerId existingEntry;
                     hostSessionKey := FsWorkerIdentityRegistry.hostSessionKey existingEntry;
                     createdAt := createdAt existingEntry;
                     lastSeenAt := time d |} in
      match saveRegistry {| entries := <[hostSessionKey := seen]> (entries registry) |} p with
      | (Returned _, p') => (Returned (createWorkerId (workerId existingEntry)), p')
      | (Thrown e, p') => (Thrown e, p')
      end
  | None =>
      let newWorkerId := uuid d in
      let now := time d in
      let entry := {| workerId := newWorkerId; hostSessionKey := hostSessionKey;
                      createdAt := now; lastSeenAt := now |} in
      match saveRegistry {| entries := <[hostSessionKey := entry]> (entries registry) |} p with
      | (Returned _, p') => (Returned (createWorkerId newWorkerId), p')
      | (Thrown e, p') => (Thrown e, p')
      end
  end.

(** [get workerId]: the instance keeps what it resolved. *)
Definition get_workerId (d : Drawn) (resolvedWorkerId : option WorkerId)
    (p : FsGoalClaimStore.Path)
  : Outcome WorkerId * (option WorkerId * FsGoalClaimStore.Path) :=
  match resolvedWorkerId with
  | Some id => (Returned id, (resolvedWorkerId, p))
  | None =>
      match resolveWorkerId d p with
      | (Returned id, p') => (Returned id, (Some id, p'))
      | (Thrown e, p') => (Thrown e, (None, p'))
      end
  end.

End WithJSON.
End FsWorkerIdentityRegistry.

(** An engine for [workers.json]: the documents [saveRegistry] writes, read
    with the lexer of [ClaimsJson]. *)
Module WorkersJson.
Import FsWorkerIdentityRegistry.

Definition entry_of (fields : list (string * string)) : option WorkerRegistryEntry :=
  i ← param fields "workerId";
  k ← param fields "hostSessionKey";
  c ← param fields "createdAt";
  l ← param fields "lastSeenAt";
  Some {| workerId := i; hostSessionKey := k; createdAt := c; lastSeenAt := l |}.

(** The entries of [entries], up to its closing brace. *)
Fixpoint registry_entries (fuel : nat) (l : list ClaimsJson.Token)
    (seen : gmap string WorkerRegistryEntry)
  : option (gmap string WorkerRegistryEntry * list ClaimsJson.Token) :=
  match fuel with
  | O => None
  | S fuel =>
      match l with
      | ClaimsJson.Str key :: ClaimsJson.Colon :: ClaimsJson.LBrace :: rest =>
          '(fields, rest) ← ClaimsJson.members rest [];
          e ← entry_of fields;
          match rest with
          | ClaimsJson.Comma :: rest => registry_entries fuel rest (<[key := e]> seen)
          | ClaimsJson.RBrace :: rest => Some (<[key := e]> seen, rest)
          | _ => None
          end
      | _ => None
      end
  end.

Definition parse (text : string) : option WorkerRegistry :=
  tokens ← ClaimsJson.lex ClaimsJson.Between (list_ascii_of_string text) [];
  match tokens with
  | ClaimsJson.LBrace :: ClaimsJson.Str "entries" :: ClaimsJson.Colon
      :: ClaimsJson.LBrace :: ClaimsJson.RBrace :: ClaimsJson.RBrace :: [] =>
      Some {| entries := ∅ |}
  | ClaimsJson.LBrace :: ClaimsJson.Str "entries" :: ClaimsJson.Colon
      :: ClaimsJson.LBrace :: rest =>
      '(m, rest) ← registry_entries (length rest) rest ∅;
      match rest with
      | ClaimsJson.RBrace :: [] => Some {| entries := m |}
      | _ => None
      end
  | _ => None
  end.

Definition entry (ke : string * WorkerRegistryEntry) : string :=
  "    " ++ ClaimsJson.quoted (fst ke) ++ ": {" ++ ClaimsJson.newline
    ++ ClaimsJson.member "      " "workerId" (workerId (snd ke)) ++ "," ++ ClaimsJson.newline
    ++ ClaimsJson.member "      " "hostSessionKey" (hostSessionKey (snd ke)) ++ ","
    ++ ClaimsJson.newline
    ++ ClaimsJson.member "      " "createdAt" (createdAt (snd ke)) ++ "," ++ ClaimsJson.newline
    ++ ClaimsJson.member "      " "lastSeenAt" (lastSeenAt (snd ke)) ++ ClaimsJson.newline
    ++ "    }".

Definition stringify (registry : WorkerRegistry) : string :=
  match map_to_list (entries registry) with
  | [] => "{" ++ ClaimsJson.newline ++ "  " ++ ClaimsJson.quoted "entries" ++ ": {}"
            ++ ClaimsJson.newline ++ "}"
  | l => "{" ++ ClaimsJson.newline ++ "  " ++ ClaimsJson.quoted "entries" ++ ": {"
           ++ ClaimsJson.newline
           ++ String.concat ("," ++ ClaimsJson.newline) (map entry l) ++ ClaimsJson.newline
           ++ "  }" ++ ClaimsJson.newline ++ "}"
  end.

#[global] Instance json : JSON :=
  {| JSON_parse := parse; JSON_stringify := stringify |}.
End WorkersJson.

(** ** CliVersionReader *)

Module CliVersionReader.

Record CliVersion := {
  version : string
}.

(** What [packageJson.version] is. *)
Inductive VersionField :=
| NoVersion                     (* undefined, null, or another falsy value *)
| NotAString                    (* a truthy value that is no string *)
| VersionText (text : string).

(** What [JSON.parse] makes of the content, as far as [getVersion] looks. *)
Inductive Parsed :=
| ParseError (message : string)   (* the [SyntaxError] *)
| NotAnObject (message : string)  (* [null]: reading [.version] is a [TypeError] *)
| Package (field : VersionField).

Class PackageJson := {
  JSON_parse : string -> Parsed
}.

(** What is at [packageJsonPath]. *)
Inductive PackageFile :=
| CannotRead (message : string)   (* [readFileSync] throws *)
| Holds (content : string).

Definition wrapped (errorMessage : string) : Exn :=
  Error ("Failed to read CLI version from package.json: " ++ errorMessage).

(** [getVersion], with the instance's [cachedVersion] before and after *)
Definition getVersion `{PackageJson} (cachedVersion : option CliVersion) (file : PackageFile)
  : Outcome CliVersion * option CliVersion :=
  match cachedVersion with
  | Some cached => (Returned cached, cachedVersion)
  | None =>
      match file with
      | CannotRead message => (Thrown (wrapped message), None)
      | Holds packageJsonContent =>
          match JSON_parse packageJsonContent with
          | ParseError message => (Thrown (wrapped message), None)
          | NotAnObject message => (Thrown (wrapped message), None)
          | Package (VersionText "") | Package NoVersion | Package NotAString =>
              (Thrown (wrapped "package.json does not contain a valid version field"), None)
          | Package (VersionText v) =>
              (Returned {| version := v |}, Some {| version := v |})
          end
      end
  end.

End CliVersionReader.

(** ** FsSettingsInitializer and InitializationProtocol *)

Inductive FileAction := create | modify.

Record PlannedFileChange := {
  path : string;
  action : FileAction;
  description : string
}.

Module FsSettingsInitializer.

Definition q : string := String (ascii_of_nat 34) "".
Definition nl : string := String (ascii_of_nat 10) "".

(** The settings file written when there is none. *)
Definition content : string :=
  "{" ++ nl
  ++ "  // Quality Assurance settings for goal completion" ++ nl
  ++ "  " ++ q ++ "qa" ++ q ++ ": {" ++ nl
  ++ "    // Default turn limit for QA iterations on goal completion" ++ nl
  ++ "    // When this limit is reached, the goal is automatically completed" ++ nl
  ++ "    " ++ q ++ "defaultTurnLimit" ++ q ++ ": 3" ++ nl
  ++ "  }" ++ nl
  ++ "}" ++ nl.

(** [ensureSettingsFileExists]; [writable] says whether [fs.writeFile]
    can create the file. *)
Definition ensureSettingsFileExists (writable : bool) (p : FsGoalClaimStore.Path)
  : Outcome unit * FsGoalClaimStore.Path :=
  if FsGoalClaimStore.existsSync p then (Returned tt, p)
  else if writable then (Returned tt, FsGoalClaimStore.Content content)
  else (Thrown (StorageFailure "settings.jsonc"), p).

(** [getPlannedFileChange] *)
Definition getPlannedFileChange (p : FsGoalClaimStore.Path) : option PlannedFileChange :=
  if FsGoalClaimStore.existsSync p then None
  else Some {| path := ".jumbo/settings.jsonc"; action := create;
               description := "Jumbo configuration settings" |}.

End FsSettingsInitializer.

Module InitializationProtocol.

(** [getPlannedFileChanges], from what the agent file protocol plans and
    the settings file. *)
Definition getPlannedFileChanges (agentChanges : list PlannedFileChange)
    (settings : FsGoalClaimStore.Path) : list PlannedFileChange :=
  let changes := agentChanges in
  match FsSettingsInitializer.getPlannedFileChange settings with
  | Some settingsChange => changes ++ [settingsChange]
  | None => changes
  end.

End InitializationProtocol.

(** ** Vocabulary of the statements *)

(** What the clock answers to the next question. *)
Definition now (w : World) : string := clock w (ticks w).

(** A claim whose expiry is a date at or before the date of [now]. *)
Definition expired_at `{JSDate} (now : string) (claim : GoalClaim) : Prop :=
  exists n e, Date_parse now = Some n
              /\ Date_parse (claimExpiresAt claim) = Some e
              /\ (e <= n)%Z.

(** The world [w] after [n] readings of the clock, all else as it was. *)
Definition at_tick (n : nat) (w : World) : World :=
  {| clock := clock w; ticks := n; workerId := workerId w;
     claimDurationMinutes := claimDurationMinutes w; claims := claims w;
     eventLog := eventLog w; goal_views := goal_views w;
     published := published w; faults := faults w; trace := trace w |}.

(** A command that only reads: whatever it answers, it leaves the world as
    it was but for the readings of the clock. *)
Definition quiet {A} (m : Cmd A) : Prop :=
  forall w, exists n, after m w = at_tick n w.

(** The write a handler makes to the claim store. *)
Inductive ClaimWrite :=
| Stores (claim : GoalClaim)
| Releases (goalId : string).

Definition claim_effect (c : ClaimWrite) : Effect :=
  match c with
  | Stores claim => ClaimSet claim
  | Releases g => ClaimReleased g
  end.

Definition claims_after (c : ClaimWrite) (m : gmap string GoalClaim) : gmap string GoalClaim :=
  match c with
  | Stores claim => <[goalId claim := claim]> m
  | Releases g => delete g m
  end.

(** How far a handler got with its three writes: the outcome and the world
    it leaves, from the world [w] it started in. *)
Inductive handled {A} (w : World) : Outcome A * World -> Prop :=
| wrote_nothing n e :
    handled w (Thrown e, at_tick n w)
| wrote_event n event e :
    appendFails (faults w) = false ->
    handled w (Thrown e,
               at_tick n (with_eventLog (eventLog w ++ [event]) (Appended event) w))
| wrote_claim n event c e :
    appendFails (faults w) = false ->
    claimStoreFails (faults w) = false ->
    handled w (Thrown e,
               at_tick n
                 (with_claims (claims_after c (claims w)) (claim_effect c)
                    (with_eventLog (eventLog w ++ [event]) (Appended event) w)))
| wrote_all n event c a :
    appendFails (faults w) = false ->
    claimStoreFails (faults w) = false ->
    publishFails (faults w) = false ->
    handled w (Returned a,
               at_tick n
                 (delivered event
                    (with_claims (claims_after c (claims w)) (claim_effect c)
                       (with_eventLog (eventLog w ++ [event]) (Appended event) w)))).

(** Steps 6 to 8, as the handlers write them. *)
Definition persist `{JSDate} (event : GoalEvent) (c : ClaimWrite) (g : string) : Cmd string :=
  EventStore.append event ;;;
  match c with
  | Stores claim => GoalClaimPolicy.storeClaim claim
  | Releases goalId => GoalClaimPolicy.releaseClaim goalId
  end ;;;
  EventBus.publish event ;;;
  ret g.

(** Steps 1 and 2 of a command handler, then the rest of it. *)
Definition gate `{JSDate} {A} (goalId : string) (rest : WorkerId -> Cmd A) : Cmd A :=
  view <- GoalReader.findById goalId ;;
  match view with
  | None => throw (goal_not_found goalId)
  | Some _ =>
      workerId <- the_workerId ;;
      claimValidation <- GoalClaimPolicy.canClaim goalId workerId ;;
      match claimValidation with
      | Rejected _ existingClaim => throw (claimed_by_another_worker existingClaim)
      | Allowed => rest workerId
      end
  end.

(** Step 1 of a controller, then the rest of it. *)
Definition controller_gate `{JSDate} {A} (goalId : string) (rest : Cmd A) : Cmd A :=
  workerId <- the_workerId ;;
  claimValidation <- GoalClaimPolicy.canClaim goalId workerId ;;
  match claimValidation with
  | Rejected _ existingClaim => throw (claimed_by_another_worker existingClaim)
  | Allowed => rest
  end.

(** The caller holds the claim the store has for the goal. *)
Definition owns_claim (w : World) (g : string) : Prop :=
  exists c, claims w !! g = Some c /\ claimedBy c = workerId w.

(** The goal has a row in the read model. *)
Definition has_view (w : World) (g : string) : Prop :=
  is_Some (List.find (fun r => String.eqb (GoalView.goalId r) g) (goal_views w)).

(** The handlers that write to the claim store. *)
Inductive ClaimingHandler :=
| StartGoal
| ResumeGoal (note : option string)
| CompleteGoal
| ResetGoal.

Definition execute `{JSDate} (h : ClaimingHandler) (goalId : string) : Cmd string :=
  match h with
  | StartGoal => StartGoalCommandHandler_execute goalId
  | ResumeGoal note => ResumeGoalCommandHandler_execute goalId note
  | CompleteGoal => CompleteGoalCommandHandler_execute goalId
  | ResetGoal => ResetGoalCommandHandler_execute goalId
  end.

(** ** Fixtures of the test suites *)


Module Fixtures.
Definition workerA : WorkerId := createWorkerId "worker-a-uuid".
Definition workerB : WorkerId := createWorkerId "worker-b-uuid".
Definition goal : string := "goal_123".
Definition claimDurationMs : Z := 30 * 60 * 1000.

(** The mocked clock stands at ten o'clock. *)
Definition at_ten (me : WorkerId) (stored : gmap string GoalClaim)
    (log : list GoalEvent) (views : list GoalView.Row) : World :=
  {| clock := fun _ => "2025-01-15T10:00:00.000Z"; ticks := 0;
     workerId := me; claimDurationMinutes := 30; claims := stored;
     eventLog := log; goal_views := views; published := [];
     faults := no_faults; trace := [] |}.

Definition claim_of (owner : WorkerId) (since until : string) : GoalClaim :=
  {| goalId := goal; claimedBy := owner; claimedAt := since; claimExpiresAt := until |}.

Definition expiredB := claim_of workerB "2025-01-15T08:00:00.000Z" "2025-01-15T09:00:00.000Z".
Definition activeA := claim_of workerA "2025-01-15T09:30:00.000Z" "2025-01-15T10:30:00.000Z".
Definition activeB := claim_of workerB "2025-01-15T09:30:00.000Z" "2025-01-15T10:30:00.000Z".
Definition boundaryB := claim_of workerB "2025-01-15T09:30:00.000Z" "2025-01-15T10:00:00.000Z".
Definition staleA := claim_of workerA "2025-01-15T08:00:00.000Z" "2025-01-15T08:30:00.000Z".

Definition holding (c : GoalClaim) : gmap string GoalClaim := {[goal := c]}.

Definition event (n : Z) (p : GoalPayload) : GoalEvent :=
  {| aggregateId := goal; version := n; timestamp := "2025-01-15T09:00:00.000Z"; payload := p |}.

Definition added : GoalEvent :=
  event 1 (Added "Implement authentication" ["Users can log in"]
             ["AuthController"] [] [] TODO no_context).
Definition started : GoalEvent := event 2 (Started DOING None None None).
Definition submitted : GoalEvent :=
  event 3 (SubmittedForReview INREVIEW "2025-01-15T09:00:00.000Z").
Definition qualified : GoalEvent :=
  event 4 (Qualified QUALIFIED "2025-01-15T09:00:00.000Z").
Definition completed : GoalEvent := event 5 (Completed COMPLETED).

(** The same world with an event store that cannot be written. *)
Definition unwritable (w : World) : World :=
  {| clock := clock w; ticks := ticks w; workerId := workerId w;
     claimDurationMinutes := claimDurationMinutes w; claims := claims w;
     eventLog := eventLog w; goal_views := goal_views w;
     published := published w;
     faults := {| appendFails := true; claimStoreFails := false; publishFails := false |};
     trace := trace w |}.

Definition view (status : GoalStatus) (n : Z) : GoalView.Row :=
  {| GoalView.goalId := goal; GoalView.objective := "Implement authentication";
     GoalView.successCriteria := "[]"; GoalView.scopeIn := "[]";
     GoalView.scopeOut := "[]"; GoalView.boundaries := "[]";
     GoalView.status := status_text status; GoalView.version := n;
     GoalView.createdAt := "2025-01-15T08:00:00.000Z";
     GoalView.updatedAt := "2025-01-15T09:00:00.000Z";
     GoalView.note := None; GoalView.progress := "[]";
     GoalView.claimedBy := None; GoalView.claimedAt := None;
     GoalView.claimExpiresAt := None; GoalView.nextGoalId := None |}.
End Fixtures.

(** * Properties *)

(** ** Dates *)

Lemma Date_ge_expired `{JSDate} (now : string) (claim : GoalClaim) :
  Date_ge (new_Date now) (new_Date (claimExpiresAt claim)) = true
  <-> expired_at now claim.
Proof.
  unfold expired_at, new_Date, Date_ge. split.
  - destruct (Date_parse now) as [n|]; [|discriminate].
    destruct (Date_parse (claimExpiresAt claim)) as [e|]; [|discriminate].
    intros Hle. exists n, e. repeat split. now apply Z.leb_le.
  - intros (n & e & -> & -> & Hle). now apply Z.leb_le.
Qed.

Lemma Date_ge_active `{JSDate} (now : string) (claim : GoalClaim) :
  Date_ge (new_Date now) (new_Date (claimExpiresAt claim)) = false
  <-> ~ expired_at now claim.
Proof.
  rewrite <- Date_ge_expired.
  destruct (Date_ge _ _); split; intros; congruence.
Qed.

Lemma Date_plus_in_range (n ms : Z) :
  (Z.abs (n + ms) <= MAX_TIME_VALUE)%Z ->
  Date_plus (Some n) ms = Some (n + ms)%Z.
Proof.
  intros Hr. unfold Date_plus, TimeClip.
  now apply Z.leb_le in Hr as ->.
Qed.

(** ** C1: the decision rule of [canClaim] *)

Lemma canClaim_unfold `{JSDate} (g : string) (wk : WorkerId) (w : World) :
  outcome (GoalClaimPolicy.canClaim g wk) w =
  Returned
    match claims w !! g with
    | None => Allowed
    | Some c =>
        if Date_ge (new_Date (now w)) (new_Date (claimExpiresAt c)) then Allowed
        else if String.eqb (claimedBy c) wk then Allowed
        else Rejected CLAIMED_BY_ANOTHER_WORKER c
    end.
Proof.
  unfold outcome, GoalClaimPolicy.canClaim, bind, IGoalClaimStore.getClaim, nowIso, now.
  cbn. destruct (claims w !! g) as [c|]; cbn; [|reflexivity].
  destruct (Date_ge _ _); [reflexivity|].
  destruct (String.eqb _ _); reflexivity.
Qed.

Lemma canClaim_expired_claim `{JSDate} (g : string) (wk : WorkerId) (w : World) (c : GoalClaim) :
  claims w !! g = Some c -> expired_at (now w) c ->
  outcome (GoalClaimPolicy.canClaim g wk) w = Returned Allowed.
Proof.
  intros Hc Hx. rewrite canClaim_unfold, Hc.
  apply Date_ge_expired in Hx. now rewrite Hx.
Qed.

Lemma canClaim_own_claim `{JSDate} (g : string) (wk : WorkerId) (w : World) (c : GoalClaim) :
  claims w !! g = Some c -> ~ expired_at (now w) c -> claimedBy c = wk ->
  outcome (GoalClaimPolicy.canClaim g wk) w = Returned Allowed.
Proof.
  intros Hc Hx Hby. rewrite canClaim_unfold, Hc.
  apply Date_ge_active in Hx. rewrite Hx.
  apply String.eqb_eq in Hby. now rewrite Hby.
Qed.

Lemma canClaim_other_claim `{JSDate} (g : string) (wk : WorkerId) (w : World) (c : GoalClaim) :
  claims w !! g = Some c -> ~ expired_at (now w) c -> claimedBy c <> wk ->
  outcome (GoalClaimPolicy.canClaim g wk) w
  = Returned (Rejected CLAIMED_BY_ANOTHER_WORKER c).
Proof.
  intros Hc Hx Hby. rewrite canClaim_unfold, Hc.
  apply Date_ge_active in Hx. rewrite Hx.
  apply String.eqb_neq in Hby. now rewrite Hby.
Qed.

(** C1. [canClaim] decides in this order: no claim in the store, allowed;
    a claim whose expiry is at or before the clock's time (the boundary
    included), allowed; a claim of the requesting worker, allowed; otherwise
    rejected with the existing claim attached.  Hence, while worker A holds
    a claim that has not expired, any other worker B is rejected and A is
    allowed. *)
Theorem canClaim_decision_rule `{JSDate} (g : string) (w : World) :
  (forall wk, claims w !! g = None ->
     outcome (GoalClaimPolicy.canClaim g wk) w = Returned Allowed)
  /\ (forall wk c, claims w !! g = Some c -> expired_at (now w) c ->
     outcome (GoalClaimPolicy.canClaim g wk) w = Returned Allowed)
  /\ (forall wk c n, claims w !! g = Some c ->
     Date_parse (now w) = Some n -> Date_parse (claimExpiresAt c) = Some n ->
     outcome (GoalClaimPolicy.canClaim g wk) w = Returned Allowed)
  /\ (forall wk c, claims w !! g = Some c -> ~ expired_at (now w) c ->
     claimedBy c = wk ->
     outcome (GoalClaimPolicy.canClaim g wk) w = Returned Allowed)
  /\ (forall wk c, claims w !! g = Some c -> ~ expired_at (now w) c ->
     claimedBy c <> wk ->
     outcome (GoalClaimPolicy.canClaim g wk) w
     = Returned (Rejected CLAIMED_BY_ANOTHER_WORKER c))
  /\ (forall A B c, A <> B -> claims w !! g = Some c -> claimedBy c = A ->
     ~ expired_at (now w) c ->
     outcome (GoalClaimPolicy.canClaim g B) w
     = Returned (Rejected CLAIMED_BY_ANOTHER_WORKER c)
     /\ outcome (GoalClaimPolicy.canClaim g A) w = Returned Allowed).
Proof.
  repeat split.
  - intros wk Hnone. now rewrite canClaim_unfold, Hnone.
  - intros wk c. apply canClaim_expired_claim.
  - intros wk c n Hc Hn He. apply (canClaim_expired_claim g wk w c Hc).
    exists n, n. repeat split; [assumption..|lia].
  - intros wk c. apply canClaim_own_claim.
  - intros wk c. apply canClaim_other_claim.
  - apply (canClaim_other_claim g B w c); [assumption..|congruence].
  - now apply (canClaim_own_claim g A w c).
Qed.

Lemma canClaim_decision_rule_witness :
  outcome (GoalClaimPolicy.canClaim Fixtures.goal Fixtures.workerA)
    (Fixtures.at_ten Fixtures.workerA (Fixtures.holding Fixtures.activeB) [] [])
  = Returned (Rejected CLAIMED_BY_ANOTHER_WORKER Fixtures.activeB)
  /\ outcome (GoalClaimPolicy.canClaim Fixtures.goal Fixtures.workerB)
       (Fixtures.at_ten Fixtures.workerB (Fixtures.holding Fixtures.activeB) [] [])
     = Returned Allowed.
Proof.
  pose proof (canClaim_decision_rule Fixtures.goal
                (Fixtures.at_ten Fixtures.workerA (Fixtures.holding Fixtures.activeB) [] []))
    as (_ & _ & _ & _ & _ & Hexcl).
  apply (Hexcl Fixtures.workerB Fixtures.workerA Fixtures.activeB).
  - discriminate.
  - reflexivity.
  - reflexivity.
  - intros (n & e & Hn & He & Hle). vm_compute in Hn, He.
    injection Hn as <-. injection He as <-. lia.
Defined.

(** The cases of the policy's test suite. *)
Example canClaim_no_claim :
  outcome (GoalClaimPolicy.canClaim Fixtures.goal Fixtures.workerA)
    (Fixtures.at_ten Fixtures.workerA ∅ [] []) = Returned Allowed.
Proof. reflexivity. Qed.

Example canClaim_expired :
  outcome (GoalClaimPolicy.canClaim Fixtures.goal Fixtures.workerA)
    (Fixtures.at_ten Fixtures.workerA (Fixtures.holding Fixtures.expiredB) [] [])
  = Returned Allowed.
Proof. vm_compute. reflexivity. Qed.

Example canClaim_own :
  outcome (GoalClaimPolicy.canClaim Fixtures.goal Fixtures.workerA)
    (Fixtures.at_ten Fixtures.workerA (Fixtures.holding Fixtures.activeA) [] [])
  = Returned Allowed.
Proof. vm_compute. reflexivity. Qed.

Example canClaim_exact_expiration :
  outcome (GoalClaimPolicy.canClaim Fixtures.goal Fixtures.workerA)
    (Fixtures.at_ten Fixtures.workerA (Fixtures.holding Fixtures.boundaryB) [] [])
  = Returned Allowed.
Proof. vm_compute. reflexivity. Qed.

Example createClaim_fields :
  outcome (GoalClaimPolicy.createClaim Fixtures.goal Fixtures.workerA Fixtures.claimDurationMs)
    (Fixtures.at_ten Fixtures.workerA ∅ [] [])
  = Returned (Fixtures.claim_of Fixtures.workerA
                "2025-01-15T10:00:00.000Z" "2025-01-15T10:30:00.000Z").
Proof. vm_compute. reflexivity. Qed.

Example refreshClaim_preserves_claimedAt :
  outcome (GoalClaimPolicy.refreshClaim Fixtures.goal Fixtures.workerA Fixtures.claimDurationMs)
    (Fixtures.at_ten Fixtures.workerA (Fixtures.holding Fixtures.staleA) [] [])
  = Returned (Fixtures.claim_of Fixtures.workerA
                "2025-01-15T08:00:00.000Z" "2025-01-15T10:30:00.000Z").
Proof. vm_compute. reflexivity. Qed.

(** ** C6 and C9: refreshing a claim *)

Lemma prepareRefreshedClaim_run `{JSDate} (g : string) (wk : WorkerId) (d : Z) (w : World) (n : Z) :
  Date_parse (now w) = Some n ->
  (Z.abs (n + d) <= MAX_TIME_VALUE)%Z ->
  GoalClaimPolicy.prepareRefreshedClaim g wk d w =
  (Returned {| goalId := g; claimedBy := wk;
               claimedAt := match claims w !! g with
                            | Some c => claimedAt c
                            | None => now w
                            end;
               claimExpiresAt := Date_format (n + d) |},
   ticked w).
Proof.
  intros Hn Hr.
  unfold GoalClaimPolicy.prepareRefreshedClaim, bind, IGoalClaimStore.getClaim, nowIso.
  cbn. fold (now w). unfold new_Date. rewrite Hn, (Date_plus_in_range _ _ Hr).
  reflexivity.
Qed.

(** Preparing never writes: whatever the clock says, the store, the log, the
    bus and the trace are as before. *)
Lemma prepareRefreshedClaim_reads_only `{JSDate} (g : string) (wk : WorkerId) (d : Z) (w : World) :
  after (GoalClaimPolicy.prepareRefreshedClaim g wk d) w = ticked w.
Proof.
  unfold after, GoalClaimPolicy.prepareRefreshedClaim, bind, IGoalClaimStore.getClaim, nowIso.
  cbn. destruct (Date_plus _ _); reflexivity.
Qed.

(** C6. With a clock that answers a date and a duration that stays within
    the range of dates, [prepareRefreshedClaim] returns a claim that expires
    at now plus the duration, that keeps the [claimedAt] of the claim in the
    store when there is one and takes now when there is none; in both cases,
    and also when it throws, the claim store is not written. *)
Theorem prepareRefreshedClaim_preserves_origin `{JSDate}
    (g : string) (wk : WorkerId) (d : Z) (w : World) :
  (claims (after (GoalClaimPolicy.prepareRefreshedClaim g wk d) w) = claims w
   /\ did (GoalClaimPolicy.prepareRefreshedClaim g wk d) w = [])
  /\ forall n, Date_parse (now w) = Some n -> (Z.abs (n + d) <= MAX_TIME_VALUE)%Z ->
     exists r, outcome (GoalClaimPolicy.prepareRefreshedClaim g wk d) w = Returned r
       /\ goalId r = g /\ claimedBy r = wk
       /\ claimExpiresAt r = Date_format (n + d)
       /\ (forall c, claims w !! g = Some c -> claimedAt r = claimedAt c)
       /\ (claims w !! g = None -> claimedAt r = now w).
Proof.
  split.
  - unfold did. rewrite prepareRefreshedClaim_reads_only. cbn.
    split; [reflexivity|]. apply drop_all.
  - intros n Hn Hr. eexists. unfold outcome.
    rewrite (prepareRefreshedClaim_run g wk d w n Hn Hr). cbn.
    repeat split.
    + intros c Hc. now rewrite Hc.
    + intros Hc. now rewrite Hc.
Qed.

Lemma prepareRefreshedClaim_preserves_origin_witness :
  exists r,
    outcome (GoalClaimPolicy.prepareRefreshedClaim Fixtures.goal Fixtures.workerA
               Fixtures.claimDurationMs)
      (Fixtures.at_ten Fixtures.workerA (Fixtures.holding Fixtures.staleA) [] [])
    = Returned r
    /\ claimedAt r = "2025-01-15T08:00:00.000Z"
    /\ claimExpiresAt r = "2025-01-15T10:30:00.000Z".
Proof.
  destruct (prepareRefreshedClaim_preserves_origin Fixtures.goal Fixtures.workerA
              Fixtures.claimDurationMs
              (Fixtures.at_ten Fixtures.workerA (Fixtures.holding Fixtures.staleA) [] []))
    as [_ Hret].
  destruct (Hret 1736935200000%Z) as (r & Hr & _ & _ & Hexp & Hkept & _).
  - reflexivity.
  - vm_compute. discriminate.
  - exists r. split; [exact Hr|]. split.
    + apply (Hkept Fixtures.staleA). reflexivity.
    + rewrite Hexp. reflexivity.
Defined.

(** C9. Refreshing checks no ownership: whoever holds the claim in the
    store, and even while that claim is active so that [canClaim] rejects
    worker B, [prepareRefreshedClaim] for B returns a claim owned by B with
    the holder's [claimedAt], and [refreshClaim] writes it over the stored
    one. *)
Theorem refreshClaim_checks_no_owner `{JSDate}
    (g : string) (A B : WorkerId) (d : Z) (w : World) (c : GoalClaim) (n : Z) :
  claims w !! g = Some c -> claimedBy c = A -> A <> B ->
  Date_parse (now w) = Some n -> (Z.abs (n + d) <= MAX_TIME_VALUE)%Z ->
  claimStoreFails (faults w) = false ->
  let r := {| goalId := g; claimedBy := B; claimedAt := claimedAt c;
              claimExpiresAt := Date_format (n + d) |} in
  outcome (GoalClaimPolicy.prepareRefreshedClaim g B d) w = Returned r
  /\ outcome (GoalClaimPolicy.refreshClaim g B d) w = Returned r
  /\ claims (after (GoalClaimPolicy.refreshClaim g B d) w) !! g = Some r
  /\ (~ expired_at (now w) c ->
      outcome (GoalClaimPolicy.canClaim g B) w
      = Returned (Rejected CLAIMED_BY_ANOTHER_WORKER c)).
Proof.
  intros Hc HA HAB Hn Hr Hok r.
  assert (Hrun := prepareRefreshedClaim_run g B d w n Hn Hr).
  rewrite Hc in Hrun. fold r in Hrun.
  repeat split.
  - unfold outcome. now rewrite Hrun.
  - unfold outcome, GoalClaimPolicy.refreshClaim, bind. rewrite Hrun.
    unfold IGoalClaimStore.setClaim. cbn. now rewrite Hok.
  - unfold after, GoalClaimPolicy.refreshClaim, bind. rewrite Hrun.
    unfold IGoalClaimStore.setClaim. cbn. rewrite Hok. cbn.
    apply lookup_insert_eq.
  - intros Hactive.
    apply (canClaim_other_claim g B w c); [assumption..|congruence].
Qed.

Lemma refreshClaim_checks_no_owner_witness :
  claims (after (GoalClaimPolicy.refreshClaim Fixtures.goal Fixtures.workerB
                   Fixtures.claimDurationMs)
            (Fixtures.at_ten Fixtures.workerB (Fixtures.holding Fixtures.activeA) [] []))
    !! Fixtures.goal
  = Some (Fixtures.claim_of Fixtures.workerB
            "2025-01-15T09:30:00.000Z" "2025-01-15T10:30:00.000Z").
Proof.
  destruct (refreshClaim_checks_no_owner Fixtures.goal Fixtures.workerA Fixtures.workerB
              Fixtures.claimDurationMs
              (Fixtures.at_ten Fixtures.workerB (Fixtures.holding Fixtures.activeA) [] [])
              Fixtures.activeA 1736935200000%Z)
    as (_ & _ & Hstored & _).
  - reflexivity.
  - reflexivity.
  - discriminate.
  - reflexivity.
  - vm_compute. discriminate.
  - reflexivity.
  - rewrite Hstored. reflexivity.
Defined.

(** ** C3 and C4: replaying a history *)

Lemma apply_bumps_version (state : Goal.GoalState) (e : GoalEvent) :
  Goal.version (Goal.apply state e) = (Goal.version state + 1)%Z.
Proof. unfold Goal.apply. destruct (payload e); reflexivity. Qed.

Lemma fold_apply_version (es : list GoalEvent) (state : Goal.GoalState) :
  Goal.version (fold_left Goal.apply es state)
  = (Goal.version state + Z.of_nat (length es))%Z.
Proof.
  revert state. induction es as [|e es IH]; intros state; cbn [fold_left length].
  - lia.
  - rewrite IH, apply_bumps_version. lia.
Qed.


Lemma replays_is_fold (state final : Goal.GoalState) (es : list GoalEvent) :
  Goal.replays state es final -> final = fold_left Goal.apply es state.
Proof.
  induction 1 as [state|state e rest final _ IH]; [reflexivity|exact IH].
Qed.

(** C3. A state reached by applying N events from the empty state has
    version N: every application adds exactly one, so every prefix of the
    history has the version of its length and no value is skipped or taken
    back. *)
Theorem version_counts_events (id : string) (events : list GoalEvent) :
  Goal.version (Goal.rehydrate id events) = Z.of_nat (length events)
  /\ (forall state e,
        Goal.version (Goal.apply state e) = (Goal.version state + 1)%Z)
  /\ (forall final, Goal.replays (Goal.empty id) events final ->
        Goal.version final = Z.of_nat (length events))
  /\ (forall k, k <= length events ->
        Goal.version (Goal.rehydrate id (take k events)) = Z.of_nat k).
Proof.
  assert (Hall : forall es, Goal.version (Goal.rehydrate id es) = Z.of_nat (length es)).
  { intros es. unfold Goal.rehydrate. rewrite fold_apply_version. cbn. lia. }
  repeat split.
  - apply Hall.
  - apply apply_bumps_version.
  - intros final Hr. apply replays_is_fold in Hr as ->. apply Hall.
  - intros k Hk. rewrite Hall, length_take. f_equal. lia.
Qed.

Lemma version_counts_events_witness :
  Goal.version
    (Goal.rehydrate Fixtures.goal
       (take 3 [Fixtures.added; Fixtures.started; Fixtures.submitted;
                Fixtures.qualified; Fixtures.completed])) = 3%Z.
Proof.
  apply (version_counts_events Fixtures.goal
           [Fixtures.added; Fixtures.started; Fixtures.submitted;
            Fixtures.qualified; Fixtures.completed]).
  cbn. lia.
Defined.



(** The replays of the aggregate's test suite. *)
Example rehydrate_empty_history :
  Goal.rehydrate Fixtures.goal [] = Goal.empty Fixtures.goal.
Proof. reflexivity. Qed.

Example rehydrate_full_review_workflow :
  let state := Goal.rehydrate Fixtures.goal
                 [Fixtures.added; Fixtures.started; Fixtures.submitted;
                  Fixtures.qualified; Fixtures.completed] in
  Goal.objective state = "Implement authentication"
  /\ Goal.status state = COMPLETED
  /\ Goal.version state = 5%Z.
Proof. repeat split. Qed.

Example submitted_from_blocked_keeps_note :
  let state :=
    Goal.apply
      (Goal.noted (Goal.moved (Goal.empty Fixtures.goal) BLOCKED) (Some "Waiting for API"))
      Fixtures.submitted in
  Goal.status state = INREVIEW /\ Goal.note state = Some "Waiting for API".
Proof. repeat split. Qed.

(** ** C5: the guards of the transitions *)

Lemma includes_In (l : list GoalStatus) (s : GoalStatus) :
  includes l s = true <-> In s l.
Proof.
  unfold includes. rewrite existsb_exists. split.
  - intros (x & Hin & Heq). destruct s, x; try discriminate; exact Hin.
  - intros Hin. exists s. split; [exact Hin|]. destruct s; reflexivity.
Qed.

Lemma format_one_field (a f b v : string) :
  formatErrorMessage [Text a; Field f; Text b] [(f, v)] = a ++ v ++ b.
Proof.
  unfold formatErrorMessage. cbn [map fill param].
  rewrite String.eqb_refl. reflexivity.
Qed.

Lemma illegal_message_names_status (t : Goal.Transition) (s : GoalStatus) :
  contains (formatErrorMessage (Goal.illegal_template t) [("status", status_text s)])
    (status_text s).
Proof.
  destruct t; cbn [Goal.illegal_template];
    match goal with
    | |- contains (formatErrorMessage ?tpl _) _ => unfold tpl
    end;
    rewrite format_one_field; eexists _, _; reflexivity.
Qed.

Lemma guard_refuses (t : Goal.Transition) (state : Goal.GoalState) (w : World) :
  includes (Goal.valid_from t) (Goal.status state) = false ->
  GoalMethods.guard t state w
  = (Thrown (Error (formatErrorMessage (Goal.illegal_template t)
                      [("status", status_text (Goal.status state))])), w).
Proof.
  intros Hno. destruct t; unfold GoalMethods.guard; cbn in *;
    rewrite Hno; reflexivity.
Qed.

Lemma guard_admits (t : Goal.Transition) (state : Goal.GoalState) (w : World) :
  includes (Goal.valid_from t) (Goal.status state) = true ->
  GoalMethods.guard t state w = (Returned tt, w).
Proof.
  intros Hyes. destruct t; unfold GoalMethods.guard; cbn in *;
    rewrite Hyes; reflexivity.
Qed.

(** C5. Each of the seven transitions, invoked in a status outside its
    "From" column, throws an error whose message contains the text of the
    current status, and invoked inside it produces the event of its "To"
    status.  The rule of [submitForReview] holds exactly in [doing] and
    [blocked]; in [to-do], [paused], [in-review], [qualified] and
    [completed] it reports one error, "Cannot submit goal for review in
    <status> status". *)
Theorem guards_name_the_status (t : Goal.Transition) (state : Goal.GoalState)
    (claim : GoalMethods.ClaimFields) (w : World) :
  (~ In (Goal.status state) (Goal.valid_from t) ->
     exists message,
       outcome (GoalMethods.invoke t state claim) w = Thrown (Error message)
       /\ contains message (status_text (Goal.status state)))
  /\ (In (Goal.status state) (Goal.valid_from t) ->
     exists event,
       outcome (GoalMethods.invoke t state claim) w = Returned event
       /\ payload_status (payload event) = Goal.target t
       /\ version event = (Goal.version state + 1)%Z)
  /\ (isValid (CanSubmitForReviewRule.validate state) = true
      <-> Goal.status state = DOING \/ Goal.status state = BLOCKED)
  /\ (In (Goal.status state) [TODO; PAUSED; INREVIEW; QUALIFIED; COMPLETED] ->
     isValid (CanSubmitForReviewRule.validate state) = false
     /\ errors (CanSubmitForReviewRule.validate state)
        = ["Cannot submit goal for review in " ++ status_text (Goal.status state) ++ " status"]
     /\ contains ("Cannot submit goal for review in "
                    ++ status_text (Goal.status state) ++ " status")
          (status_text (Goal.status state))).
Proof.
  repeat split.
  - intros Hout.
    assert (Hno : includes (Goal.valid_from t) (Goal.status state) = false).
    { destruct (includes _ _) eqn:E; [|reflexivity].
      apply includes_In in E. contradiction. }
    eexists. split; [|apply (illegal_message_names_status t)].
    unfold outcome.
    destruct t; cbn [GoalMethods.invoke];
      unfold GoalMethods.start, GoalMethods.pause, GoalMethods.resume,
        GoalMethods.submitForReview, GoalMethods.qualify, GoalMethods.complete,
        GoalMethods.reset, bind;
      rewrite (guard_refuses _ state w Hno); reflexivity.
  - intros Hin. apply includes_In in Hin.
    unfold outcome.
    destruct t; cbn [GoalMethods.invoke];
      unfold GoalMethods.start, GoalMethods.pause, GoalMethods.resume,
        GoalMethods.submitForReview, GoalMethods.qualify, GoalMethods.complete,
        GoalMethods.reset, bind;
      rewrite (guard_admits _ state w Hin); cbn;
      eexists; repeat split.
  - unfold CanSubmitForReviewRule.validate. cbn.
    destruct (Goal.status state); cbn; intros; try discriminate; auto.
  - unfold CanSubmitForReviewRule.validate. cbn.
    intros [-> | ->]; reflexivity.
  - unfold CanSubmitForReviewRule.validate. cbn.
    destruct H as [<-|[<-|[<-|[<-|[<-|[]]]]]]; reflexivity.
  - unfold CanSubmitForReviewRule.validate. cbn.
    destruct H as [<-|[<-|[<-|[<-|[<-|[]]]]]]; reflexivity.
  - exists "Cannot submit goal for review in ", " status". reflexivity.
Qed.

Lemma guards_name_the_status_witness :
  exists message,
    outcome (GoalMethods.invoke Goal.Qualify
               (Goal.moved (Goal.empty Fixtures.goal) DOING)
               {| GoalMethods.by_ := Fixtures.workerA;
                  GoalMethods.at_ := "2025-01-15T10:00:00.000Z";
                  GoalMethods.expires_ := "2025-01-15T10:30:00.000Z" |})
      (Fixtures.at_ten Fixtures.workerA ∅ [] [])
    = Thrown (Error message)
    /\ contains message "doing".
Proof.
  apply (guards_name_the_status Goal.Qualify
           (Goal.moved (Goal.empty Fixtures.goal) DOING)).
  cbn. intros [E|[]]. discriminate E.
Defined.

(** The cases of the rule's test suite. *)
Example submit_passes_when_doing :
  CanSubmitForReviewRule.validate (Goal.moved (Goal.empty Fixtures.goal) DOING)
  = {| isValid := true; errors := [] |}.
Proof. reflexivity. Qed.

Example submit_passes_when_blocked :
  CanSubmitForReviewRule.validate (Goal.moved (Goal.empty Fixtures.goal) BLOCKED)
  = {| isValid := true; errors := [] |}.
Proof. reflexivity. Qed.

Example submit_fails_when_todo :
  CanSubmitForReviewRule.validate (Goal.empty Fixtures.goal)
  = {| isValid := false;
       errors := ["Cannot submit goal for review in to-do status"] |}.
Proof. reflexivity. Qed.

Example submit_fails_when_in_review :
  CanSubmitForReviewRule.validate (Goal.moved (Goal.empty Fixtures.goal) INREVIEW)
  = {| isValid := false;
       errors := ["Cannot submit goal for review in in-review status"] |}.
Proof. reflexivity. Qed.

(** ** C8: projecting a qualified event *)

Lemma applyGoalQualified_lookup (event : GoalEvent) (db : list GoalView.Row) (i : nat) :
  SqliteGoalQualifiedProjector.applyGoalQualified event db !! i
  = (fun r => if String.eqb (GoalView.goalId r) (aggregateId event)
              then SqliteGoalQualifiedProjector.qualified_row event r else r)
      <$> db !! i.
Proof.
  unfold SqliteGoalQualifiedProjector.applyGoalQualified.
  change (map ?f db) with (f <$> db). apply list_lookup_fmap.
Qed.

(** C8. [applyGoalQualified] keeps the table's rows in place and touches
    only those whose [goalId] is the event's [aggregateId]: there it sets
    [status] to the payload's status, the three claim columns to NULL,
    [version] to the event's version and [updatedAt] to the event's
    timestamp, and keeps the other ten columns; every other row is as it
    was. *)
Theorem applyGoalQualified_is_targeted (event : GoalEvent) (db : list GoalView.Row) :
  length (SqliteGoalQualifiedProjector.applyGoalQualified event db) = length db
  /\ forall i r, db !! i = Some r ->
     exists r', SqliteGoalQualifiedProjector.applyGoalQualified event db !! i = Some r'
       /\ (GoalView.goalId r <> aggregateId event -> r' = r)
       /\ (GoalView.goalId r = aggregateId event ->
             GoalView.status r' = status_text (payload_status (payload event))
             /\ GoalView.claimedBy r' = None
             /\ GoalView.claimedAt r' = None
             /\ GoalView.claimExpiresAt r' = None
             /\ GoalView.version r' = version event
             /\ GoalView.updatedAt r' = timestamp event
             /\ GoalView.goalId r' = GoalView.goalId r
             /\ GoalView.objective r' = GoalView.objective r
             /\ GoalView.successCriteria r' = GoalView.successCriteria r
             /\ GoalView.scopeIn r' = GoalView.scopeIn r
             /\ GoalView.scopeOut r' = GoalView.scopeOut r
             /\ GoalView.boundaries r' = GoalView.boundaries r
             /\ GoalView.createdAt r' = GoalView.createdAt r
             /\ GoalView.note r' = GoalView.note r
             /\ GoalView.progress r' = GoalView.progress r
             /\ GoalView.nextGoalId r' = GoalView.nextGoalId r).
Proof.
  split.
  - unfold SqliteGoalQualifiedProjector.applyGoalQualified. apply length_map.
  - intros i r Hr. rewrite applyGoalQualified_lookup, Hr. cbn.
    eexists. split; [reflexivity|]. split.
    + intros Hne. apply String.eqb_neq in Hne. now rewrite Hne.
    + intros Heq. apply String.eqb_eq in Heq. rewrite Heq.
      repeat split.
Qed.

Lemma applyGoalQualified_is_targeted_witness :
  exists r',
    SqliteGoalQualifiedProjector.applyGoalQualified Fixtures.qualified
      [Fixtures.view INREVIEW 3] !! 0 = Some r'
    /\ GoalView.status r' = "qualified"
    /\ GoalView.claimedBy r' = None
    /\ GoalView.version r' = 4%Z.
Proof.
  destruct (applyGoalQualified_is_targeted Fixtures.qualified [Fixtures.view INREVIEW 3])
    as [_ Hrows].
  destruct (Hrows 0 (Fixtures.view INREVIEW 3) eq_refl) as (r' & Hr' & _ & Hset).
  destruct (Hset eq_refl) as (Hstatus & Hby & _ & _ & Hversion & _).
  exists r'. repeat split; assumption.
Defined.

(** The cases of the projector's test suite. *)
Example qualified_clears_the_claim :
  let row :=
    {| GoalView.goalId := "goal_test-1"; GoalView.objective := "Test objective";
       GoalView.successCriteria := "[]"; GoalView.scopeIn := "[]";
       GoalView.scopeOut := "[]"; GoalView.boundaries := "[]";
       GoalView.status := "in-review"; GoalView.version := 2;
       GoalView.createdAt := "2026-02-01T10:00:00.000Z";
       GoalView.updatedAt := "2026-02-01T10:00:00.000Z";
       GoalView.note := None; GoalView.progress := "[]";
       GoalView.claimedBy := Some "worker_123";
       GoalView.claimedAt := Some "2026-02-01T10:00:00.000Z";
       GoalView.claimExpiresAt := Some "2026-02-01T10:30:00.000Z";
       GoalView.nextGoalId := None |} in
  let event :=
    {| aggregateId := "goal_test-1"; version := 5;
       timestamp := "2026-02-02T15:30:00.000Z";
       payload := Qualified QUALIFIED "2026-02-02T15:30:00.000Z" |} in
  SqliteGoalQualifiedProjector.findById "goal_test-1"
    (SqliteGoalQualifiedProjector.applyGoalQualified event [row])
  = Some {| GoalView.goalId := "goal_test-1"; GoalView.objective := "Test objective";
            GoalView.successCriteria := "[]"; GoalView.scopeIn := "[]";
            GoalView.scopeOut := "[]"; GoalView.boundaries := "[]";
            GoalView.status := "qualified"; GoalView.version := 5;
            GoalView.createdAt := "2026-02-01T10:00:00.000Z";
            GoalView.updatedAt := "2026-02-02T15:30:00.000Z";
            GoalView.note := None; GoalView.progress := "[]";
            GoalView.claimedBy := None; GoalView.claimedAt := None;
            GoalView.claimExpiresAt := None; GoalView.nextGoalId := None |}.
Proof. reflexivity. Qed.

(** ** C10: a missing or corrupt claims file *)



(** The cases of the store's test suite. *)
Example returns_stored_claim_after_setClaim :
  FsGoalClaimStore.getClaim Fixtures.goal
    (snd (FsGoalClaimStore.setClaim Fixtures.activeA FsGoalClaimStore.NoFile))
  = Some Fixtures.activeA.
Proof. vm_compute. reflexivity. Qed.

Example starts_fresh_when_corrupted :
  FsGoalClaimStore.getClaim Fixtures.goal
    (snd (FsGoalClaimStore.setClaim Fixtures.activeA
            (FsGoalClaimStore.Content "{ invalid json")))
  = Some Fixtures.activeA.
Proof. vm_compute. reflexivity. Qed.

Example release_removes_existing_claim :
  FsGoalClaimStore.getClaim Fixtures.goal
    (snd (FsGoalClaimStore.releaseClaim Fixtures.goal
            (snd (FsGoalClaimStore.setClaim Fixtures.activeA FsGoalClaimStore.NoFile))))
  = None.
Proof. vm_compute. reflexivity. Qed.

(** With a codec that reads back what it writes, the file store behaves as
    the map the claim policy is run on: a write is an insertion, a release
    a deletion. *)
Section LawfulCodec.
Context `{FsGoalClaimStore.JSON}.
Hypothesis parse_stringify :
  forall data, FsGoalClaimStore.JSON_parse (FsGoalClaimStore.JSON_stringify data) = Some data.

Lemma file_store_is_a_map (p : FsGoalClaimStore.Path) (c : GoalClaim) (g g' : string) :
  p <> FsGoalClaimStore.Unreadable ->
  FsGoalClaimStore.getClaim g (snd (FsGoalClaimStore.setClaim c p))
  = <[goalId c := c]> (FsGoalClaimStore.claims (FsGoalClaimStore.loadData p)) !! g
  /\ FsGoalClaimStore.getClaim g (snd (FsGoalClaimStore.releaseClaim g' p))
     = delete g' (FsGoalClaimStore.claims (FsGoalClaimStore.loadData p)) !! g.
Proof.
  intros Hp.
  assert (Hsaved : forall data,
    FsGoalClaimStore.loadData (snd (FsGoalClaimStore.saveData data p)) = data).
  { intros data. destruct p; [|contradiction|];
      unfold FsGoalClaimStore.loadData; cbn; now rewrite parse_stringify. }
  unfold FsGoalClaimStore.getClaim, FsGoalClaimStore.setClaim,
    FsGoalClaimStore.releaseClaim.
  now rewrite !Hsaved.
Qed.
End LawfulCodec.

(** ** Commands that only read *)

Lemma at_tick_here (w : World) : w = at_tick (ticks w) w.
Proof. destruct w; reflexivity. Qed.

Lemma quiet_ret {A} (a : A) : quiet (ret a).
Proof. intros w. exists (ticks w). apply at_tick_here. Qed.

Lemma quiet_throw {A} (e : Exn) : quiet (@throw A e).
Proof. intros w. exists (ticks w). apply at_tick_here. Qed.

Lemma quiet_bind {A B} (m : Cmd A) (k : A -> Cmd B) :
  quiet m -> (forall a, quiet (k a)) -> quiet (bind m k).
Proof.
  intros Hm Hk w. destruct (Hm w) as [n Hn]. unfold after, bind in *.
  destruct (m w) as [[a|e] w1]; cbn in Hn; subst w1.
  - destruct (Hk a (at_tick n w)) as [n' Hn']. exists n'.
    unfold after in Hn'. rewrite Hn'. reflexivity.
  - exists n. reflexivity.
Qed.

Lemma quiet_nowIso : quiet nowIso.
Proof. intros w. exists (S (ticks w)). reflexivity. Qed.

Lemma quiet_the_workerId : quiet the_workerId.
Proof. intros w. exists (ticks w). apply at_tick_here. Qed.

Lemma quiet_read_claimDurationMinutes : quiet read_claimDurationMinutes.
Proof. intros w. exists (ticks w). apply at_tick_here. Qed.

Lemma quiet_getClaim (g : string) : quiet (IGoalClaimStore.getClaim g).
Proof. intros w. exists (ticks w). apply at_tick_here. Qed.

Lemma quiet_readStream (g : string) : quiet (EventStore.readStream g).
Proof. intros w. exists (ticks w). apply at_tick_here. Qed.

Lemma quiet_findById (g : string) : quiet (GoalReader.findById g).
Proof. intros w. exists (ticks w). apply at_tick_here. Qed.

Create HintDb quiet.
#[local] Hint Resolve quiet_ret quiet_throw quiet_nowIso quiet_the_workerId
  quiet_read_claimDurationMinutes quiet_getClaim quiet_readStream
  quiet_findById : quiet.

Ltac quiet_steps :=
  repeat first
    [ solve [auto with quiet]
    | apply quiet_bind; [|intros ?]
    | match goal with
      | |- quiet (match ?x with _ => _ end) => destruct x
      end ].

Lemma quiet_canClaim `{JSDate} (g : string) (wk : WorkerId) :
  quiet (GoalClaimPolicy.canClaim g wk).
Proof. unfold GoalClaimPolicy.canClaim. quiet_steps. Qed.

Lemma quiet_toISOString `{JSDate} (d : Date) : quiet (GoalClaimPolicy.toISOString d).
Proof. unfold GoalClaimPolicy.toISOString. quiet_steps. Qed.

#[local] Hint Resolve quiet_canClaim quiet_toISOString : quiet.

Lemma quiet_prepareClaim `{JSDate} (g : string) (wk : WorkerId) (d : Z) :
  quiet (GoalClaimPolicy.prepareClaim g wk d).
Proof. unfold GoalClaimPolicy.prepareClaim. quiet_steps. Qed.

Lemma quiet_prepareRefreshedClaim `{JSDate} (g : string) (wk : WorkerId) (d : Z) :
  quiet (GoalClaimPolicy.prepareRefreshedClaim g wk d).
Proof. unfold GoalClaimPolicy.prepareRefreshedClaim. quiet_steps. Qed.

Lemma quiet_guard (t : Goal.Transition) (state : Goal.GoalState) :
  quiet (GoalMethods.guard t state).
Proof. unfold GoalMethods.guard. destruct t; quiet_steps. Qed.

Lemma quiet_emit (state : Goal.GoalState) (make : string -> GoalPayload) :
  quiet (GoalMethods.emit state make).
Proof. unfold GoalMethods.emit. quiet_steps. Qed.

#[local] Hint Resolve quiet_prepareClaim quiet_prepareRefreshedClaim
  quiet_guard quiet_emit : quiet.

Lemma quiet_invoke (t : Goal.Transition) (state : Goal.GoalState)
    (claim : GoalMethods.ClaimFields) :
  quiet (GoalMethods.invoke t state claim).
Proof.
  destruct t; cbn [GoalMethods.invoke];
    unfold GoalMethods.start, GoalMethods.pause, GoalMethods.resume,
      GoalMethods.submitForReview, GoalMethods.qualify, GoalMethods.complete,
      GoalMethods.reset; quiet_steps.
Qed.

Lemma quiet_start state claim : quiet (GoalMethods.start state claim).
Proof. exact (quiet_invoke Goal.Start state claim). Qed.

Lemma quiet_resume state note claim : quiet (GoalMethods.resume state note claim).
Proof. unfold GoalMethods.resume. quiet_steps. Qed.

Lemma quiet_pause state reason note : quiet (GoalMethods.pause state reason note).
Proof. unfold GoalMethods.pause. quiet_steps. Qed.

Lemma quiet_submitForReview state : quiet (GoalMethods.submitForReview state).
Proof. unfold GoalMethods.submitForReview. quiet_steps. Qed.

Lemma quiet_qualify state : quiet (GoalMethods.qualify state).
Proof. unfold GoalMethods.qualify. quiet_steps. Qed.

Lemma quiet_complete state : quiet (GoalMethods.complete state).
Proof. unfold GoalMethods.complete. quiet_steps. Qed.

Lemma quiet_reset state : quiet (GoalMethods.reset state).
Proof. unfold GoalMethods.reset. quiet_steps. Qed.

#[local] Hint Resolve quiet_start quiet_resume quiet_pause quiet_submitForReview
  quiet_qualify quiet_complete quiet_reset : quiet.

(** ** C7: the order of the three writes *)

Lemma handled_at_tick {A} (n : nat) (w : World) (x : Outcome A * World) :
  handled (at_tick n w) x -> handled w x.
Proof.
  intros Hx. inversion Hx; subst.
  - apply (wrote_nothing w n0).
  - now apply (wrote_event w n0 event).
  - now apply (wrote_claim w n0 event c).
  - now apply (wrote_all w n0 event c).
Qed.

Lemma handled_throw {A} (e : Exn) (w : World) : handled w (@throw A e w).
Proof. unfold throw. rewrite (at_tick_here w) at 2. constructor. Qed.

Lemma handled_bind_quiet {A B} (m : Cmd A) (k : A -> Cmd B) :
  quiet m -> (forall a w, handled w (k a w)) -> forall w, handled w (bind m k w).
Proof.
  intros Hm Hk w. destruct (Hm w) as [n Hn]. unfold after, bind in *.
  destruct (m w) as [[a|e] w1]; cbn in Hn; subst w1.
  - apply (handled_at_tick n). apply Hk.
  - constructor.
Qed.

Lemma handled_persist `{JSDate} (event : GoalEvent) (c : ClaimWrite) (g : string) (w : World) :
  handled w (persist event c g w).
Proof.
  unfold persist, bind, EventStore.append.
  destruct (appendFails (faults w)) eqn:Ea.
  { rewrite (at_tick_here w) at 2. constructor. }
  assert (Hc : forall w',
    (match c with
     | Stores claim => GoalClaimPolicy.storeClaim claim
     | Releases goalId => GoalClaimPolicy.releaseClaim goalId
     end) w'
    = if claimStoreFails (faults w') then (Thrown (StorageFailure "claims"), w')
      else (Returned tt, with_claims (claims_after c (claims w')) (claim_effect c) w')).
  { intros w'. destruct c; reflexivity. }
  rewrite Hc. cbn [faults with_eventLog].
  destruct (claimStoreFails (faults w)) eqn:Ec.
  { rewrite (at_tick_here (with_eventLog _ _ _)). now constructor. }
  unfold EventBus.publish. cbn [faults with_eventLog with_claims].
  destruct (publishFails (faults w)) eqn:Ep.
  { rewrite (at_tick_here (with_claims _ _ _)). now apply (wrote_claim w _ event c). }
  unfold ret. rewrite (at_tick_here (delivered _ _)).
  now apply (wrote_all w _ event c).
Qed.

Ltac handler_steps :=
  repeat first
    [ apply handled_throw
    | match goal with
      | |- handled ?w (bind (EventStore.append ?e)
                         (fun _ => bind (GoalClaimPolicy.storeClaim ?c) _) ?w) =>
          exact (handled_persist e (Stores c) _ w)
      | |- handled ?w (bind (EventStore.append ?e)
                         (fun _ => bind (GoalClaimPolicy.releaseClaim ?g) _) ?w) =>
          exact (handled_persist e (Releases g) _ w)
      | |- handled _ ((match ?x with _ => _ end) _) => destruct x
      end
    | apply handled_bind_quiet; [solve [auto with quiet] | intros ? ?; cbv beta zeta] ].

Lemma execute_handled `{JSDate} (h : ClaimingHandler) (g : string) (w : World) :
  handled w (execute h g w).
Proof.
  destruct h; cbn [execute];
    unfold StartGoalCommandHandler_execute, ResumeGoalCommandHandler_execute,
      CompleteGoalCommandHandler_execute, ResetGoalCommandHandler_execute;
    handler_steps.
Qed.

Lemma snoc_not_same {A} (l : list A) (x : A) : (l ++ [x])%list <> l.
Proof.
  intros E. apply (f_equal length) in E. rewrite length_app in E. cbn in E. lia.
Qed.

(** C7. In the handlers of start, resume, complete and reset the claim
    store is written only after the event was appended, and the event is
    published only after both: what a run adds to the trace is a prefix of
    append, claim write, publish, the whole of it when the command
    succeeds.  When the append fails the command fails, and the event log,
    the claim store and the bus are as they were. *)
Theorem claim_written_after_append `{JSDate} (h : ClaimingHandler) (g : string) (w : World) :
  trace (after (execute h g) w) = (trace w ++ did (execute h g) w)%list
  /\ (did (execute h g) w = []
      \/ (exists event, did (execute h g) w = [Appended event])
      \/ (exists event c, did (execute h g) w = [Appended event; claim_effect c])
      \/ (exists event c,
            did (execute h g) w = [Appended event; claim_effect c; Published event]))
  /\ (forall a, outcome (execute h g) w = Returned a ->
        exists event c,
          did (execute h g) w = [Appended event; claim_effect c; Published event]
          /\ eventLog (after (execute h g) w) = (eventLog w ++ [event])%list
          /\ claims (after (execute h g) w) = claims_after c (claims w)
          /\ published (after (execute h g) w) = (published w ++ [event])%list)
  /\ (appendFails (faults w) = true ->
        (exists e, outcome (execute h g) w = Thrown e)
        /\ did (execute h g) w = []
        /\ eventLog (after (execute h g) w) = eventLog w
        /\ claims (after (execute h g) w) = claims w
        /\ published (after (execute h g) w) = published w)
  /\ (eventLog (after (execute h g) w) = eventLog w ->
        claims (after (execute h g) w) = claims w
        /\ published (after (execute h g) w) = published w)
  /\ (published (after (execute h g) w) = published w
      \/ exists event c,
           eventLog (after (execute h g) w) = (eventLog w ++ [event])%list
           /\ claims (after (execute h g) w) = claims_after c (claims w)
           /\ published (after (execute h g) w) = (published w ++ [event])%list).
Proof.
  pose proof (execute_handled h g w) as Hh.
  unfold did, after, outcome.
  destruct (execute h g w) as [o w'].
  inversion Hh; subst; cbn [fst snd at_tick with_eventLog with_claims delivered
                             trace eventLog claims published];
    rewrite <- ?app_assoc; cbn [app]; rewrite ?drop_app_length.
  - rewrite drop_all, app_nil_r.
    split; [reflexivity|]. split; [left; reflexivity|].
    split; [intros a Ha; discriminate Ha|].
    split; [intros _; repeat split; eauto|].
    split; [intros _; split; reflexivity|]. left; reflexivity.
  - split; [reflexivity|]. split; [right; left; eauto|].
    split; [intros a Ha; discriminate Ha|].
    split; [intros Ha; congruence|].
    split; [intros E; destruct (snoc_not_same _ _ E)|]. left; reflexivity.
  - split; [reflexivity|]. split; [right; right; left; eauto|].
    split; [intros a Ha; discriminate Ha|].
    split; [intros Ha; congruence|].
    split; [intros E; destruct (snoc_not_same _ _ E)|]. left; reflexivity.
  - split; [reflexivity|]. split; [right; right; right; eauto|].
    split; [intros a0 _; exists event, c; repeat split|].
    split; [intros Ha; congruence|].
    split; [intros E; destruct (snoc_not_same _ _ E)|].
    right. exists event, c. repeat split.
Qed.

Lemma claim_written_after_append_witness :
  let w := Fixtures.unwritable
             (Fixtures.at_ten Fixtures.workerA ∅ [Fixtures.added]
                [Fixtures.view TODO 1]) in
  (exists e, outcome (execute StartGoal Fixtures.goal) w = Thrown e)
  /\ claims (after (execute StartGoal Fixtures.goal) w) = ∅
  /\ published (after (execute StartGoal Fixtures.goal) w) = [].
Proof.
  intros w.
  destruct (claim_written_after_append StartGoal Fixtures.goal w)
    as (_ & _ & _ & Hfail & _).
  destruct (Hfail eq_refl) as (Hthrown & _ & _ & Hclaims & Hbus).
  repeat split; assumption.
Defined.

(** A start on a writable store makes the three writes in order. *)
Example start_writes_in_order :
  did (execute StartGoal Fixtures.goal)
    (Fixtures.at_ten Fixtures.workerA ∅ [Fixtures.added] [Fixtures.view TODO 1])
  = let event :=
      {| aggregateId := Fixtures.goal; version := 2;
         timestamp := "2025-01-15T10:00:00.000Z";
         payload := Started DOING (Some Fixtures.workerA)
                      (Some "2025-01-15T10:00:00.000Z")
                      (Some "2025-01-15T10:30:00.000Z") |} in
    [Appended event;
     ClaimSet (Fixtures.claim_of Fixtures.workerA
                 "2025-01-15T10:00:00.000Z" "2025-01-15T10:30:00.000Z");
     Published event].
Proof. vm_compute. reflexivity. Qed.

(** ** C2: the claim gate of the commands *)

Lemma bind_returned {A B} (m : Cmd A) (k : A -> Cmd B) (w w' : World) (a : A) :
  m w = (Returned a, w') -> bind m k w = k a w'.
Proof. intros E. unfold bind. now rewrite E. Qed.

Lemma canClaim_run `{JSDate} (g : string) (wk : WorkerId) (w : World) :
  exists n, GoalClaimPolicy.canClaim g wk w
            = (outcome (GoalClaimPolicy.canClaim g wk) w, at_tick n w).
Proof.
  destruct (quiet_canClaim g wk w) as [n Hn]. exists n.
  unfold outcome, after in *. destruct (GoalClaimPolicy.canClaim g wk w); cbn in *.
  now subst.
Qed.

Lemma canClaim_allowed `{JSDate} (g : string) (wk : WorkerId) (w : World) :
  outcome (GoalClaimPolicy.canClaim g wk) w = Returned Allowed ->
  claims w !! g = None
  \/ exists c, claims w !! g = Some c /\ (expired_at (now w) c \/ claimedBy c = wk).
Proof.
  rewrite canClaim_unfold. destruct (claims w !! g) as [c|]; [|now left].
  intros Hd. right. exists c. split; [reflexivity|].
  destruct (Date_ge _ _) eqn:Eg.
  - left. now apply Date_ge_expired.
  - right. destruct (String.eqb _ _) eqn:Eb; [|discriminate].
    now apply String.eqb_eq.
Qed.

Lemma canClaim_always_answers `{JSDate} (g : string) (wk : WorkerId) (w : World) :
  exists d, outcome (GoalClaimPolicy.canClaim g wk) w = Returned d.
Proof. rewrite canClaim_unfold. eauto. Qed.

Lemma controller_gate_rejects `{JSDate} {A} (g : string) (rest : Cmd A) (w : World) (c : GoalClaim) :
  outcome (GoalClaimPolicy.canClaim g (workerId w)) w
  = Returned (Rejected CLAIMED_BY_ANOTHER_WORKER c) ->
  exists n, controller_gate g rest w = (Thrown (claimed_by_another_worker c), at_tick n w).
Proof.
  intros Hrej. destruct (canClaim_run g (workerId w) w) as [n Hrun].
  rewrite Hrej in Hrun. exists n. unfold controller_gate.
  rewrite (bind_returned the_workerId _ w w (workerId w) eq_refl).
  now rewrite (bind_returned _ _ _ _ _ Hrun).
Qed.

Lemma controller_gate_returns `{JSDate} {A} (g : string) (rest : Cmd A) (w : World) (a : A) :
  outcome (controller_gate g rest) w = Returned a ->
  outcome (GoalClaimPolicy.canClaim g (workerId w)) w = Returned Allowed.
Proof.
  destruct (canClaim_run g (workerId w) w) as [n Hrun].
  destruct (canClaim_always_answers g (workerId w) w) as [d Hd].
  rewrite Hd in Hrun |- *. unfold outcome at 1, controller_gate.
  rewrite (bind_returned the_workerId _ w w (workerId w) eq_refl).
  rewrite (bind_returned _ _ _ _ _ Hrun).
  destruct d as [|r c]; [reflexivity|]. cbn. discriminate.
Qed.

Lemma gate_is_controller_gate `{JSDate} {A} (g : string) (rest : WorkerId -> Cmd A) (w : World) :
  has_view w g -> gate g rest w = controller_gate g (rest (workerId w)) w.
Proof.
  intros [v Hv]. unfold gate, controller_gate.
  rewrite (bind_returned (GoalReader.findById g) _ w w (Some v));
    [|unfold GoalReader.findById; now rewrite Hv].
  now rewrite !(bind_returned the_workerId _ w w (workerId w) eq_refl).
Qed.

Lemma gate_returns `{JSDate} {A} (g : string) (rest : WorkerId -> Cmd A) (w : World) (a : A) :
  outcome (gate g rest) w = Returned a ->
  has_view w g
  /\ outcome (GoalClaimPolicy.canClaim g (workerId w)) w = Returned Allowed.
Proof.
  intros Hret.
  destruct (List.find (fun r => String.eqb (GoalView.goalId r) g) (goal_views w))
    as [v|] eqn:Hv.
  - assert (Hview : has_view w g) by (unfold has_view; rewrite Hv; eauto).
    split; [exact Hview|].
    unfold outcome in Hret. rewrite (gate_is_controller_gate g rest w Hview) in Hret.
    exact (controller_gate_returns g _ w a Hret).
  - exfalso. unfold outcome, gate in Hret.
    rewrite (bind_returned (GoalReader.findById g) _ w w None) in Hret;
      [discriminate Hret|].
    unfold GoalReader.findById. now rewrite Hv.
Qed.

Lemma owner_command_gated `{JSDate} (t : Goal.Transition) (g : string) :
  exists rest, owner_command t g = gate g rest.
Proof. destruct t; eexists; reflexivity. Qed.

Lemma claimed_message_carries_expiry (c : GoalClaim) :
  exists message, claimed_by_another_worker c = Error message
                  /\ contains message (claimExpiresAt c).
Proof.
  unfold claimed_by_another_worker, GoalErrorMessages.GOAL_CLAIMED_BY_ANOTHER_WORKER.
  rewrite format_one_field. eexists. split; [reflexivity|].
  eexists _, _. reflexivity.
Qed.

Lemma controllers_gated `{JSDate} (g : string) :
  (exists rest, QualifyGoalController_handle g = controller_gate g rest)
  /\ (exists rest, CompleteGoalController_handle g = controller_gate g rest)
  /\ (exists rest, ReviewGoalController_handle g = controller_gate g rest).
Proof. repeat split; eexists; reflexivity. Qed.

Lemma rejected_leaves_no_trace {A} (m : Cmd A) (w : World) (e : Exn) (n : nat) :
  m w = (Thrown e, at_tick n w) ->
  outcome m w = Thrown e /\ did m w = [].
Proof.
  intros E. unfold outcome, did, after. rewrite E. cbn. split; [reflexivity|].
  apply drop_all.
Qed.

(** C2, as the code has it.  The commands of pause, submitForReview,
    qualify, complete and reset, and the controllers in front of them, ask
    [canClaim], not for ownership.  With a row in the read model, a claim in
    the store that another worker holds and that has not expired makes the
    command fail with GOAL_CLAIMED_BY_ANOTHER_WORKER, the message carrying
    that claim's expiry, and nothing is written.  A command that succeeds
    ran while the store held no claim for the goal, or an expired one, or
    one of the caller. *)
Theorem commands_pass_the_claim_gate `{JSDate} (g : string) (w : World) :
  (forall t c, Goal.owner_guarded t = true ->
     has_view w g -> claims w !! g = Some c ->
     claimedBy c <> workerId w -> ~ expired_at (now w) c ->
     outcome (owner_command t g) w = Thrown (claimed_by_another_worker c)
     /\ did (owner_command t g) w = []
     /\ exists message, claimed_by_another_worker c = Error message
                        /\ contains message (claimExpiresAt c))
  /\ (forall t a, Goal.owner_guarded t = true ->
     outcome (owner_command t g) w = Returned a ->
     has_view w g
     /\ (claims w !! g = None
         \/ exists c, claims w !! g = Some c
                      /\ (expired_at (now w) c \/ claimedBy c = workerId w)))
  /\ (forall c, claims w !! g = Some c ->
     claimedBy c <> workerId w -> ~ expired_at (now w) c ->
     outcome (QualifyGoalController_handle g) w = Thrown (claimed_by_another_worker c)
     /\ outcome (CompleteGoalController_handle g) w = Thrown (claimed_by_another_worker c)
     /\ outcome (ReviewGoalController_handle g) w = Thrown (claimed_by_another_worker c)).
Proof.
  assert (Hrej : forall c, claims w !! g = Some c ->
            claimedBy c <> workerId w -> ~ expired_at (now w) c ->
            outcome (GoalClaimPolicy.canClaim g (workerId w)) w
            = Returned (Rejected CLAIMED_BY_ANOTHER_WORKER c)).
  { intros c Hc Hby Hactive. now apply canClaim_other_claim. }
  split; [|split].
  - intros t c _ Hview Hc Hby Hactive.
    destruct (owner_command_gated t g) as [rest Hgate].
    destruct (controller_gate_rejects g (rest (workerId w)) w c) as [n Hn]; [auto|].
    assert (Hrun : owner_command t g w
                   = (Thrown (claimed_by_another_worker c), at_tick n w)).
    { rewrite Hgate, (gate_is_controller_gate g rest w Hview). exact Hn. }
    destruct (rejected_leaves_no_trace _ _ _ _ Hrun) as [Ho Hd].
    repeat split; [exact Ho|exact Hd|apply claimed_message_carries_expiry].
  - intros t a _ Hret.
    destruct (owner_command_gated t g) as [rest Hgate]. rewrite Hgate in Hret.
    apply gate_returns in Hret as [Hview Hallowed].
    split; [exact Hview|now apply canClaim_allowed].
  - intros c Hc Hby Hactive.
    destruct (controllers_gated g) as ([r1 E1] & [r2 E2] & [r3 E3]).
    rewrite E1, E2, E3. unfold outcome.
    destruct (controller_gate_rejects g r1 w c) as [n1 ->]; [auto|].
    destruct (controller_gate_rejects g r2 w c) as [n2 ->]; [auto|].
    destruct (controller_gate_rejects g r3 w c) as [n3 ->]; [auto|].
    repeat split.
Qed.

Lemma commands_pass_the_claim_gate_witness :
  outcome (owner_command Goal.Complete Fixtures.goal)
    (Fixtures.at_ten Fixtures.workerB (Fixtures.holding Fixtures.activeA)
       [Fixtures.added; Fixtures.started; Fixtures.submitted; Fixtures.qualified]
       [Fixtures.view QUALIFIED 4])
  = Thrown (Error "Goal is claimed by another worker. Claim expires at 2025-01-15T10:30:00.000Z.").
Proof.
  destruct (commands_pass_the_claim_gate Fixtures.goal
              (Fixtures.at_ten Fixtures.workerB (Fixtures.holding Fixtures.activeA)
                 [Fixtures.added; Fixtures.started; Fixtures.submitted; Fixtures.qualified]
                 [Fixtures.view QUALIFIED 4]))
    as (Hrefused & _).
  destruct (Hrefused Goal.Complete Fixtures.activeA) as (Hout & _).
  - reflexivity.
  - eexists. reflexivity.
  - reflexivity.
  - discriminate.
  - intros (n & e & Hn & He & Hle). vm_compute in Hn, He.
    injection Hn as <-. injection He as <-. lia.
  - exact Hout.
Defined.

(** C2, as the spec words it, fails: worker B completes a qualified goal
    while the only claim in the store is an expired one of worker A. *)
Lemma completes_without_owning_the_claim :
  ~ (forall (t : Goal.Transition) (g : string) (w : World),
       Goal.owner_guarded t = true ->
       (forall a, outcome (owner_command t g) w = Returned a -> owns_claim w g)
       /\ (~ owns_claim w g ->
           exists c, outcome (owner_command t g) w
                     = Thrown (claimed_by_another_worker c))).
Proof.
  intros Hspec.
  destruct (Hspec Goal.Complete Fixtures.goal
              (Fixtures.at_ten Fixtures.workerB (Fixtures.holding Fixtures.staleA)
                 [Fixtures.added; Fixtures.started; Fixtures.submitted; Fixtures.qualified]
                 [Fixtures.view QUALIFIED 4]) eq_refl) as [Honly _].
  destruct (Honly Fixtures.goal) as (c & Hc & Hby).
  - vm_compute. reflexivity.
  - vm_compute in Hc. injection Hc as <-. discriminate Hby.
Qed.

(** Completing with no claim in the store at all succeeds as well. *)
Example completes_with_an_empty_store :
  outcome (owner_command Goal.Complete Fixtures.goal)
    (Fixtures.at_ten Fixtures.workerB ∅
       [Fixtures.added; Fixtures.started; Fixtures.submitted; Fixtures.qualified]
       [Fixtures.view QUALIFIED 4])
  = Returned Fixtures.goal.
Proof. vm_compute. reflexivity. Qed.

(** The scenario of section 8: qualifying a goal in review succeeds and
    clears the claim columns of its row. *)
Example qualify_clears_the_read_model :
  let row :=
    {| GoalView.goalId := Fixtures.goal; GoalView.objective := "Implement authentication";
       GoalView.successCriteria := "[]"; GoalView.scopeIn := "[]";
       GoalView.scopeOut := "[]"; GoalView.boundaries := "[]";
       GoalView.status := "in-review"; GoalView.version := 3;
       GoalView.createdAt := "2025-01-15T08:00:00.000Z";
       GoalView.updatedAt := "2025-01-15T09:00:00.000Z";
       GoalView.note := None; GoalView.progress := "[]";
       GoalView.claimedBy := Some Fixtures.workerA;
       GoalView.claimedAt := Some "2025-01-15T09:30:00.000Z";
       GoalView.claimExpiresAt := Some "2025-01-15T10:30:00.000Z";
       GoalView.nextGoalId := None |} in
  let w := Fixtures.at_ten Fixtures.workerA (Fixtures.holding Fixtures.activeA)
             [Fixtures.added; Fixtures.started; Fixtures.submitted] [row] in
  outcome (QualifyGoalController_handle Fixtures.goal) w
  = Returned {| qualified_goalId := Fixtures.goal;
                qualified_objective := "Implement authentication";
                qualified_status := "qualified";
                qualified_nextGoalId := None |}
  /\ map GoalView.claimedBy (goal_views (after (QualifyGoalController_handle Fixtures.goal) w))
     = [None].
Proof. vm_compute. split; reflexivity. Qed.

Example qualify_refuses_a_doing_goal :
  outcome (QualifyGoalController_handle Fixtures.goal)
    (Fixtures.at_ten Fixtures.workerA ∅ [Fixtures.added; Fixtures.started]
       [Fixtures.view DOING 2])
  = Thrown (Error "Cannot qualify goal in doing status").
Proof. vm_compute. reflexivity. Qed.

(** * Further properties of the sources *)

(** ** GoalClaimPolicy: creating and releasing a claim *)

Lemma bind_inv {A B} (m : Cmd A) (k : A -> Cmd B) (w w2 : World) (b : B) :
  bind m k w = (Returned b, w2) ->
  exists a w1, m w = (Returned a, w1) /\ k a w1 = (Returned b, w2).
Proof.
  unfold bind. destruct (m w) as [[a|e] w1]; [|discriminate].
  intros E. now exists a, w1.
Qed.

Lemma prepareClaim_run `{JSDate} (g : string) (wk : WorkerId) (d : Z) (w : World) :
  GoalClaimPolicy.prepareClaim g wk d w =
  match Date_plus (new_Date (now w)) d with
  | Some t => (Returned {| goalId := g; claimedBy := wk; claimedAt := now w;
                           claimExpiresAt := Date_format t |}, ticked w)
  | None => (Thrown RangeError, ticked w)
  end.
Proof.
  unfold GoalClaimPolicy.prepareClaim, bind, nowIso. cbn. fold (now w).
  destruct (Date_plus _ _); reflexivity.
Qed.

Lemma Date_plus_fails `{JSDate} (text : string) (d : Z) :
  Date_plus (new_Date text) d = None
  <-> Date_parse text = None
      \/ exists n, Date_parse text = Some n /\ (MAX_TIME_VALUE < Z.abs (n + d))%Z.
Proof.
  unfold Date_plus, new_Date, TimeClip.
  destruct (Date_parse text) as [n|]; [|intuition].
  destruct (Z.leb_spec (Z.abs (n + d)) MAX_TIME_VALUE) as [Hle|Hgt]; split.
  - discriminate.
  - intros [E|(m & E & Hm)]; [discriminate|]. injection E as <-. lia.
  - intros _. right. eauto.
  - reflexivity.
Qed.

Lemma createClaim_in_range `{JSDate} (g : string) (wk : WorkerId) (d : Z) (w : World) (n : Z) :
  Date_parse (now w) = Some n -> (Z.abs (n + d) <= MAX_TIME_VALUE)%Z ->
  claimStoreFails (faults w) = false ->
  let c := {| goalId := g; claimedBy := wk; claimedAt := now w;
              claimExpiresAt := Date_format (n + d) |} in
  outcome (GoalClaimPolicy.createClaim g wk d) w = Returned c
  /\ claims (after (GoalClaimPolicy.createClaim g wk d) w) = <[g := c]> (claims w)
  /\ did (GoalClaimPolicy.createClaim g wk d) w = [ClaimSet c].
Proof.
  intros Hn Hr Hok c.
  unfold did, outcome, after, GoalClaimPolicy.createClaim, bind.
  rewrite prepareClaim_run. unfold new_Date. rewrite Hn, (Date_plus_in_range _ _ Hr).
  fold c. unfold IGoalClaimStore.setClaim. cbn. rewrite Hok. cbn.
  repeat split. now rewrite drop_app_length.
Qed.

(** X1. [createClaim] returns the claim it stores: owned by the caller,
    claimed at the clock's answer, expiring the duration later, and put in
    the store under its goal as the one write of the call.  When the
    clock's answer is no date, or the expiry would leave the range of
    dates, it throws [RangeError] before the store is touched. *)
Theorem createClaim_stores_or_throws `{JSDate} (g : string) (wk : WorkerId) (d : Z) (w : World) :
  (forall n, Date_parse (now w) = Some n -> (Z.abs (n + d) <= MAX_TIME_VALUE)%Z ->
     claimStoreFails (faults w) = false ->
     let c := {| goalId := g; claimedBy := wk; claimedAt := now w;
                 claimExpiresAt := Date_format (n + d) |} in
     outcome (GoalClaimPolicy.createClaim g wk d) w = Returned c
     /\ claims (after (GoalClaimPolicy.createClaim g wk d) w) = <[g := c]> (claims w)
     /\ did (GoalClaimPolicy.createClaim g wk d) w = [ClaimSet c])
  /\ (Date_parse (now w) = None
      \/ (exists n, Date_parse (now w) = Some n /\ (MAX_TIME_VALUE < Z.abs (n + d))%Z) ->
     outcome (GoalClaimPolicy.createClaim g wk d) w = Thrown RangeError
     /\ claims (after (GoalClaimPolicy.createClaim g wk d) w) = claims w
     /\ did (GoalClaimPolicy.createClaim g wk d) w = []).
Proof.
  split.
  - intros n Hn Hr Hok. now apply createClaim_in_range.
  - intros Hbad. apply Date_plus_fails in Hbad.
    unfold did, outcome, after, GoalClaimPolicy.createClaim, bind.
    rewrite prepareClaim_run, Hbad. cbn. repeat split. apply drop_all.
Qed.

Lemma createClaim_stores_or_throws_witness :
  claims (after (GoalClaimPolicy.createClaim Fixtures.goal Fixtures.workerA
                   Fixtures.claimDurationMs)
            (Fixtures.at_ten Fixtures.workerA ∅ [] []))
  = {[Fixtures.goal := Fixtures.claim_of Fixtures.workerA
                         "2025-01-15T10:00:00.000Z" "2025-01-15T10:30:00.000Z"]}.
Proof.
  destruct (createClaim_stores_or_throws Fixtures.goal Fixtures.workerA
              Fixtures.claimDurationMs (Fixtures.at_ten Fixtures.workerA ∅ [] []))
    as [Hstores _].
  destruct (Hstores 1736935200000%Z) as (_ & Hclaims & _).
  - reflexivity.
  - vm_compute. discriminate.
  - reflexivity.
  - rewrite Hclaims. reflexivity.
Defined.

(** X2. The lease: once worker A has created a claim with a duration, and
    the engine reads back the expiry it printed, another worker is rejected
    for as long as the clock stands before that expiry and allowed from the
    expiry on, while A is allowed throughout. *)
Theorem created_claim_excludes_until_expiry `{JSDate}
    (g : string) (A B : WorkerId) (d : Z) (w : World) (n n' : Z) :
  Date_parse (now w) = Some n -> (Z.abs (n + d) <= MAX_TIME_VALUE)%Z ->
  claimStoreFails (faults w) = false ->
  Date_parse (Date_format (n + d)) = Some (n + d)%Z ->
  A <> B ->
  let w' := after (GoalClaimPolicy.createClaim g A d) w in
  Date_parse (now w') = Some n' ->
  exists c, outcome (GoalClaimPolicy.createClaim g A d) w = Returned c
    /\ ((n' < n + d)%Z ->
        outcome (GoalClaimPolicy.canClaim g B) w'
        = Returned (Rejected CLAIMED_BY_ANOTHER_WORKER c))
    /\ ((n + d <= n')%Z ->
        outcome (GoalClaimPolicy.canClaim g B) w' = Returned Allowed)
    /\ outcome (GoalClaimPolicy.canClaim g A) w' = Returned Allowed.
Proof.
  intros Hn Hr Hok Hback HAB w' Hn'.
  destruct (createClaim_in_range g A d w n Hn Hr Hok) as (Hout & Hclaims & _).
  eexists. split; [exact Hout|].
  assert (Hc : claims w' !! g
               = Some {| goalId := g; claimedBy := A; claimedAt := now w;
                         claimExpiresAt := Date_format (n + d) |}).
  { unfold w'. rewrite Hclaims. apply lookup_insert_eq. }
  assert (Hexp : expired_at (now w') {| goalId := g; claimedBy := A; claimedAt := now w;
                                        claimExpiresAt := Date_format (n + d) |}
                 <-> (n + d <= n')%Z).
  { unfold expired_at. cbn. split.
    - intros (a & b & Ha & Hb & Hle). congruence.
    - intros Hle. exists n', (n + d)%Z. auto. }
  repeat split.
  - intros Hlt. apply (canClaim_other_claim g B w' _ Hc); [|exact HAB].
    rewrite Hexp. lia.
  - intros Hge. apply (canClaim_expired_claim g B w' _ Hc). now apply Hexp.
  - destruct (Z.le_gt_cases (n + d) n') as [Hge|Hlt].
    + apply (canClaim_expired_claim g A w' _ Hc). now apply Hexp.
    + apply (canClaim_own_claim g A w' _ Hc); [|reflexivity]. rewrite Hexp. lia.
Qed.

Lemma created_claim_excludes_until_expiry_witness :
  exists c,
    outcome (GoalClaimPolicy.createClaim Fixtures.goal Fixtures.workerA
               Fixtures.claimDurationMs)
      (Fixtures.at_ten Fixtures.workerA ∅ [] []) = Returned c
    /\ outcome (GoalClaimPolicy.canClaim Fixtures.goal Fixtures.workerB)
         (after (GoalClaimPolicy.createClaim Fixtures.goal Fixtures.workerA
                   Fixtures.claimDurationMs)
            (Fixtures.at_ten Fixtures.workerA ∅ [] []))
       = Returned (Rejected CLAIMED_BY_ANOTHER_WORKER c).
Proof.
  destruct (created_claim_excludes_until_expiry Fixtures.goal Fixtures.workerA
              Fixtures.workerB Fixtures.claimDurationMs
              (Fixtures.at_ten Fixtures.workerA ∅ [] [])
              1736935200000%Z 1736935200000%Z)
    as (c & Hc & Hbefore & _).
  - reflexivity.
  - vm_compute. discriminate.
  - reflexivity.
  - vm_compute. reflexivity.
  - discriminate.
  - reflexivity.
  - exists c. split; [exact Hc|]. apply Hbefore. vm_compute. reflexivity.
Defined.

(** X3. Releasing a goal frees it for every worker and leaves the claims of
    the other goals, and with them what [canClaim] decides there, as they
    were; when the store cannot be written, the release throws and nothing
    changes. *)
Theorem released_goal_is_free `{JSDate} (g : string) (w : World) :
  (claimStoreFails (faults w) = false ->
     let w' := after (GoalClaimPolicy.releaseClaim g) w in
     outcome (GoalClaimPolicy.releaseClaim g) w = Returned tt
     /\ (forall wk, outcome (GoalClaimPolicy.canClaim g wk) w' = Returned Allowed)
     /\ (forall g', g' <> g -> claims w' !! g' = claims w !! g')
     /\ (forall g' wk, g' <> g ->
           outcome (GoalClaimPolicy.canClaim g' wk) w'
           = outcome (GoalClaimPolicy.canClaim g' wk) w))
  /\ (claimStoreFails (faults w) = true ->
     GoalClaimPolicy.releaseClaim g w = (Thrown (StorageFailure "claims"), w)).
Proof.
  split; intros Hf.
  - intros w'.
    assert (Hw' : w' = with_claims (delete g (claims w)) (ClaimReleased g) w).
    { unfold w', after, GoalClaimPolicy.releaseClaim, IGoalClaimStore.releaseClaim.
      now rewrite Hf. }
    split.
    { unfold outcome, GoalClaimPolicy.releaseClaim, IGoalClaimStore.releaseClaim.
      now rewrite Hf. }
    rewrite Hw'. repeat split.
    + intros wk. rewrite canClaim_unfold. cbn. now rewrite lookup_delete_eq.
    + intros g' Hne. now apply lookup_delete_ne.
    + intros g' wk Hne. rewrite !canClaim_unfold. cbn.
      rewrite lookup_delete_ne by congruence. reflexivity.
  - unfold GoalClaimPolicy.releaseClaim, IGoalClaimStore.releaseClaim.
    now rewrite Hf.
Qed.

Lemma released_goal_is_free_witness :
  outcome (GoalClaimPolicy.canClaim Fixtures.goal Fixtures.workerB)
    (after (GoalClaimPolicy.releaseClaim Fixtures.goal)
       (Fixtures.at_ten Fixtures.workerA (Fixtures.holding Fixtures.activeA) [] []))
  = Returned Allowed.
Proof.
  destruct (released_goal_is_free Fixtures.goal
              (Fixtures.at_ten Fixtures.workerA (Fixtures.holding Fixtures.activeA) [] []))
    as [Hfree _].
  destruct (Hfree eq_refl) as (_ & Hall & _).
  apply Hall.
Defined.

(** ** FsGoalClaimStore: what is written is what is read *)





(** ** Command handlers: what a run leaves behind *)

Lemma gate_inv `{JSDate} {A} (g : string) (rest : WorkerId -> Cmd A) (w w2 : World) (a : A) :
  gate g rest w = (Returned a, w2) ->
  has_view w g
  /\ outcome (GoalClaimPolicy.canClaim g (workerId w)) w = Returned Allowed
  /\ exists n, rest (workerId w) (at_tick n w) = (Returned a, w2).
Proof.
  intros E.
  assert (Hret : outcome (gate g rest) w = Returned a) by (unfold outcome; now rewrite E).
  destruct (gate_returns g rest w a Hret) as [Hview Hallowed].
  repeat split; [exact Hview|exact Hallowed|].
  rewrite (gate_is_controller_gate g rest w Hview) in E.
  destruct (canClaim_run g (workerId w) w) as [n Hrun]. rewrite Hallowed in Hrun.
  exists n. unfold controller_gate in E.
  rewrite (bind_returned the_workerId _ w w (workerId w) eq_refl) in E.
  now rewrite (bind_returned _ _ _ _ _ Hrun) in E.
Qed.

Lemma persist_inv `{JSDate} (event : GoalEvent) (c : ClaimWrite) (g a : string) (w w2 : World) :
  persist event c g w = (Returned a, w2) ->
  a = g
  /\ w2 = delivered event
            (with_claims (claims_after c (claims w)) (claim_effect c)
               (with_eventLog (eventLog w ++ [event]) (Appended event) w)).
Proof.
  intros E. unfold persist in E.
  apply bind_inv in E as ([] & w1 & E1 & E).
  apply bind_inv in E as ([] & w3 & E3 & E).
  apply bind_inv in E as ([] & w4 & E4 & E).
  unfold ret in E. injection E as <- <-.
  unfold EventStore.append in E1.
  destruct (appendFails (faults w)); [discriminate|]. injection E1 as <-.
  assert (E3' : w3 = with_claims (claims_after c (claims w)) (claim_effect c)
                       (with_eventLog (eventLog w ++ [event]) (Appended event) w)).
  { destruct c; unfold GoalClaimPolicy.storeClaim, GoalClaimPolicy.releaseClaim,
      IGoalClaimStore.setClaim, IGoalClaimStore.releaseClaim in E3; cbn in E3;
      destruct (claimStoreFails (faults w)); try discriminate;
      now injection E3 as <-. }
  subst w3. unfold EventBus.publish in E4. cbn in E4.
  destruct (publishFails (faults w)); [discriminate|]. injection E4 as <-.
  split; reflexivity.
Qed.

Lemma quiet_run {A} (m : Cmd A) (w w1 : World) (a : A) :
  quiet m -> m w = (Returned a, w1) -> exists n, w1 = at_tick n w.
Proof.
  intros Hq E. destruct (Hq w) as [n Hn]. exists n.
  unfold after in Hn. now rewrite E in Hn.
Qed.

(** X6. A goal without a row in the read model: each of the four handlers
    throws GOAL_NOT_FOUND for that id before anything else happens; the
    clock is not read and the world is left exactly as it was. *)
Theorem unknown_goal_changes_nothing `{JSDate} (h : ClaimingHandler) (g : string) (w : World) :
  ~ has_view w g ->
  execute h g w = (Thrown (goal_not_found g), w).
Proof.
  intros Hno.
  assert (Hnone : GoalReader.findById g w = (Returned None, w)).
  { unfold GoalReader.findById. unfold has_view in Hno.
    destruct (List.find _ _); [|reflexivity]. exfalso. apply Hno. eauto. }
  destruct h; cbn [execute];
    unfold StartGoalCommandHandler_execute, ResumeGoalCommandHandler_execute,
      CompleteGoalCommandHandler_execute, ResetGoalCommandHandler_execute;
    now rewrite (bind_returned _ _ _ _ _ Hnone).
Qed.

Lemma unknown_goal_changes_nothing_witness :
  execute CompleteGoal Fixtures.goal
    (Fixtures.at_ten Fixtures.workerA (Fixtures.holding Fixtures.activeA)
       [Fixtures.added] [])
  = (Thrown (goal_not_found Fixtures.goal),
     Fixtures.at_ten Fixtures.workerA (Fixtures.holding Fixtures.activeA)
       [Fixtures.added] []).
Proof.
  apply (unknown_goal_changes_nothing CompleteGoal).
  intros [v Hv]. discriminate Hv.
Defined.

(** X7. A start that succeeds leaves in the store, under the goal, a claim
    of the caller: claimed at an answer of the clock that is a date, and
    expiring [claimDurationMinutes * 60 * 1000] milliseconds after it.  The
    claims of the other goals are untouched and the handler answers the
    goal id. *)
Theorem start_stores_the_callers_claim `{JSDate} (g a : string) (w : World) :
  outcome (execute StartGoal g) w = Returned a ->
  a = g
  /\ (exists c n,
        claims (after (execute StartGoal g) w) !! g = Some c
        /\ goalId c = g /\ claimedBy c = workerId w
        /\ Date_parse (claimedAt c) = Some n
        /\ claimExpiresAt c = Date_format (n + claimDurationMinutes w * 60 * 1000))
  /\ (forall g', g' <> g ->
        claims (after (execute StartGoal g) w) !! g' = claims w !! g').
Proof.
  unfold outcome, after. cbn [execute].
  destruct (StartGoalCommandHandler_execute g w) as [o w2] eqn:E. cbn. intros ->.
  apply gate_inv in E as (_ & _ & n0 & E).
  apply bind_inv in E as (history & w1 & E1 & E).
  unfold EventStore.readStream in E1. injection E1 as <- <-.
  apply bind_inv in E as (minutes & w1 & E1 & E).
  unfold read_claimDurationMinutes in E1. injection E1 as <- <-.
  apply bind_inv in E as (claim & w1 & E1 & E).
  rewrite prepareClaim_run in E1.
  destruct (Date_plus _ _) as [t|] eqn:Et; [|discriminate]. injection E1 as <- <-.
  apply bind_inv in E as (event & w1 & E1 & E).
  apply quiet_run in E1 as [n1 ->]; [|apply quiet_start].
  apply (persist_inv event (Stores _) g a) in E as [-> ->].
  cbn. split; [reflexivity|]. split.
  - unfold Date_plus, new_Date, TimeClip in Et. cbn in Et.
    destruct (Date_parse (clock w n0)) as [n|] eqn:En; [|discriminate].
    destruct (Z.abs _ <=? _)%Z; [|discriminate]. injection Et as <-.
    eexists _, n. rewrite lookup_insert_eq. cbn. repeat split. exact En.
  - intros g' Hne. now rewrite lookup_insert_ne by congruence.
Qed.

Lemma start_stores_the_callers_claim_witness :
  claims (after (execute StartGoal Fixtures.goal)
            (Fixtures.at_ten Fixtures.workerA ∅ [Fixtures.added] [Fixtures.view TODO 1]))
    !! "goal_456" = None.
Proof.
  destruct (start_stores_the_callers_claim Fixtures.goal Fixtures.goal
              (Fixtures.at_ten Fixtures.workerA ∅ [Fixtures.added] [Fixtures.view TODO 1]))
    as (_ & _ & Hothers).
  - vm_compute. reflexivity.
  - rewrite Hothers; [reflexivity|discriminate].
Defined.

(** X8. A complete or a reset that succeeds removes the goal's claim from
    the store, whoever held it, and leaves every other goal's claim as it
    was; the one event it appended is the one it published. *)
Theorem complete_and_reset_release_the_claim `{JSDate}
    (h : ClaimingHandler) (g a : string) (w : World) :
  h = CompleteGoal \/ h = ResetGoal ->
  outcome (execute h g) w = Returned a ->
  a = g
  /\ claims (after (execute h g) w) = delete g (claims w)
  /\ exists event,
       eventLog (after (execute h g) w) = (eventLog w ++ [event])%list
       /\ published (after (execute h g) w) = (published w ++ [event])%list.
Proof.
  intros Hh. unfold outcome, after.
  destruct (execute h g w) as [o w2] eqn:E. cbn. intros ->.
  destruct Hh as [-> | ->]; cbn [execute] in E;
    unfold CompleteGoalCommandHandler_execute, ResetGoalCommandHandler_execute in E;
    apply gate_inv in E as (_ & _ & n0 & E);
    apply bind_inv in E as (history & w1 & E1 & E);
    unfold EventStore.readStream in E1; injection E1 as <- <-;
    apply bind_inv in E as (event & w1 & E1 & E).
  - apply quiet_run in E1 as [n1 ->]; [|apply quiet_complete].
    apply (persist_inv event (Releases g) g a) in E as [-> ->].
    cbn. repeat split. exists event. split; reflexivity.
  - apply quiet_run in E1 as [n1 ->]; [|apply quiet_reset].
    apply (persist_inv event (Releases g) g a) in E as [-> ->].
    cbn. repeat split. exists event. split; reflexivity.
Qed.

Lemma complete_and_reset_release_the_claim_witness :
  claims (after (execute CompleteGoal Fixtures.goal)
            (Fixtures.at_ten Fixtures.workerB (Fixtures.holding Fixtures.staleA)
               [Fixtures.added; Fixtures.started; Fixtures.submitted; Fixtures.qualified]
               [Fixtures.view QUALIFIED 4]))
  = delete Fixtures.goal (Fixtures.holding Fixtures.staleA).
Proof.
  apply (complete_and_reset_release_the_claim CompleteGoal Fixtures.goal Fixtures.goal).
  - left. reflexivity.
  - vm_compute. reflexivity.
Defined.

Lemma gate_inv_run `{JSDate} {A} (g : string) (rest : WorkerId -> Cmd A) (w w2 : World) (a : A) :
  gate g rest w = (Returned a, w2) ->
  exists n, GoalClaimPolicy.canClaim g (workerId w) w = (Returned Allowed, at_tick n w)
            /\ rest (workerId w) (at_tick n w) = (Returned a, w2).
Proof.
  intros E.
  assert (Hret : outcome (gate g rest) w = Returned a) by (unfold outcome; now rewrite E).
  destruct (gate_returns g rest w a Hret) as [Hview Hallowed].
  rewrite (gate_is_controller_gate g rest w Hview) in E.
  destruct (canClaim_run g (workerId w) w) as [n Hrun]. rewrite Hallowed in Hrun.
  exists n. split; [exact Hrun|]. unfold controller_gate in E.
  rewrite (bind_returned the_workerId _ w w (workerId w) eq_refl) in E.
  now rewrite (bind_returned _ _ _ _ _ Hrun) in E.
Qed.

(** X9. A resume that succeeds stores a claim of the caller that keeps the
    [claimedAt] of whatever claim the store held for the goal, also when
    that was the expired claim of another worker; with no claim in the
    store it is claimed at an answer of the clock.  Other goals' claims are
    untouched. *)
Theorem resume_keeps_the_first_claimedAt `{JSDate}
    (note : option string) (g a : string) (w : World) :
  outcome (execute (ResumeGoal note) g) w = Returned a ->
  exists c,
    claims (after (execute (ResumeGoal note) g) w) !! g = Some c
    /\ goalId c = g /\ claimedBy c = workerId w
    /\ (forall held, claims w !! g = Some held ->
          claimedAt c = claimedAt held
          /\ (claimedBy held = workerId w \/ expired_at (now w) held))
    /\ (claims w !! g = None -> claimedAt c = now w)
    /\ (forall g', g' <> g ->
          claims (after (execute (ResumeGoal note) g) w) !! g' = claims w !! g').
Proof.
  unfold outcome at 1, after. cbn [execute].
  destruct (ResumeGoalCommandHandler_execute g note w) as [o w2] eqn:E. cbn. intros ->.
  unfold ResumeGoalCommandHandler_execute in E.
  pose proof E as E0.
  apply gate_inv in E0 as (_ & Hallowed & _).
  apply gate_inv_run in E as (n0 & Hcan & E).
  apply bind_inv in E as (history & w1 & E1 & E).
  unfold EventStore.readStream in E1. injection E1 as <- <-.
  apply bind_inv in E as (minutes & w1 & E1 & E).
  unfold read_claimDurationMinutes in E1. injection E1 as <- <-.
  apply bind_inv in E as (claim & w1 & E1 & E).
  assert (Hclaim : goalId claim = g /\ claimedBy claim = workerId w
                   /\ claimedAt claim = match claims w !! g with
                                        | Some held => claimedAt held
                                        | None => clock w n0
                                        end).
  { unfold GoalClaimPolicy.prepareRefreshedClaim in E1.
    apply bind_inv in E1 as (existing & w3 & E3 & E1).
    unfold IGoalClaimStore.getClaim in E3. injection E3 as <- <-.
    apply bind_inv in E1 as (t & w3 & E3 & E1).
    unfold nowIso in E3. injection E3 as <- <-.
    apply bind_inv in E1 as (x & w3 & _ & E1).
    unfold ret in E1. injection E1 as <- _. cbn. auto. }
  apply quiet_run in E1 as [n1 ->]; [|apply quiet_prepareRefreshedClaim].
  apply bind_inv in E as (event & w1 & E1 & E).
  apply quiet_run in E1 as [n2 ->]; [|apply quiet_resume].
  apply (persist_inv event (Stores claim) g a) in E as [-> ->].
  destruct Hclaim as (Hg & Hby & Hat).
  exists claim. cbn. rewrite Hg, lookup_insert_eq. repeat split; auto.
  - rewrite Hat, H0. reflexivity.
  - apply canClaim_allowed in Hallowed as [Hnone|(c & Hc & Hor)]; [congruence|].
    assert (c = held) by congruence. subst c. tauto.
  - intros Hnone. rewrite Hat, Hnone.
    assert (Hn0 : GoalClaimPolicy.canClaim g (workerId w) w
                  = (Returned Allowed, w)).
    { unfold GoalClaimPolicy.canClaim, bind, IGoalClaimStore.getClaim. cbn.
      now rewrite Hnone. }
    rewrite Hn0 in Hcan. injection Hcan as Hw.
    apply (f_equal ticks) in Hw. cbn in Hw. unfold now. now rewrite Hw.
  - intros g' Hne. now rewrite lookup_insert_ne by congruence.
Qed.

Lemma resume_keeps_the_first_claimedAt_witness :
  exists c,
    claims (after (execute (ResumeGoal None) Fixtures.goal)
              (Fixtures.at_ten Fixtures.workerA (Fixtures.holding Fixtures.expiredB)
                 [Fixtures.added; Fixtures.started;
                  Fixtures.event 3 (Paused PAUSED "ContextCompressed" None)]
                 [Fixtures.view PAUSED 3])) !! Fixtures.goal = Some c
    /\ claimedBy c = Fixtures.workerA
    /\ claimedAt c = "2025-01-15T08:00:00.000Z".
Proof.
  destruct (resume_keeps_the_first_claimedAt None Fixtures.goal Fixtures.goal
              (Fixtures.at_ten Fixtures.workerA (Fixtures.holding Fixtures.expiredB)
                 [Fixtures.added; Fixtures.started;
                  Fixtures.event 3 (Paused PAUSED "ContextCompressed" None)]
                 [Fixtures.view PAUSED 3]))
    as (c & Hc & _ & Hby & Hheld & _).
  - vm_compute. reflexivity.
  - exists c. split; [exact Hc|]. split; [exact Hby|].
    destruct (Hheld Fixtures.expiredB) as [Hat _]; [reflexivity|exact Hat].
Defined.

(** ** QualifyGoalController: the checks before the command *)

(** X10. When the read model has no row for the goal, or a row whose status
    is not in-review, [QualifyGoalController.handle] throws before the
    command handler runs: nothing is appended, stored, published or
    projected.  What it throws is decided in the order of the source: the
    claim of another worker first, then the missing row, then the row's
    status, which the message is formatted from. *)
Theorem qualify_controller_checks_first `{JSDate} (g : string) (w : World) :
  (forall row, SqliteGoalQualifiedProjector.findById g (goal_views w) = Some row ->
     GoalView.status row <> status_text INREVIEW) ->
  exists e,
    outcome (QualifyGoalController_handle g) w = Thrown e
    /\ did (QualifyGoalController_handle g) w = []
    /\ claims (after (QualifyGoalController_handle g) w) = claims w
    /\ eventLog (after (QualifyGoalController_handle g) w) = eventLog w
    /\ published (after (QualifyGoalController_handle g) w) = published w
    /\ goal_views (after (QualifyGoalController_handle g) w) = goal_views w
    /\ match outcome (GoalClaimPolicy.canClaim g (workerId w)) w with
       | Returned (Rejected _ c) => e = claimed_by_another_worker c
       | _ =>
           match SqliteGoalQualifiedProjector.findById g (goal_views w) with
           | None => e = goal_not_found g
           | Some row =>
               e = Error (formatErrorMessage GoalErrorMessages.CANNOT_QUALIFY_IN_STATUS
                            [("status", GoalView.status row)])
           end
       end.
Proof.
  intros Hstatus.
  destruct (canClaim_run g (workerId w) w) as [n Hrun].
  destruct (canClaim_always_answers g (workerId w) w) as [d Hd].
  rewrite Hd in Hrun |- *.
  assert (Hthrows : exists e,
    QualifyGoalController_handle g w = (Thrown e, at_tick n w)
    /\ match d with
       | Rejected _ c => e = claimed_by_another_worker c
       | Allowed =>
           match SqliteGoalQualifiedProjector.findById g (goal_views w) with
           | None => e = goal_not_found g
           | Some row =>
               e = Error (formatErrorMessage GoalErrorMessages.CANNOT_QUALIFY_IN_STATUS
                            [("status", GoalView.status row)])
           end
       end).
  { unfold QualifyGoalController_handle.
    rewrite (bind_returned the_workerId _ w w (workerId w) eq_refl).
    rewrite (bind_returned _ _ _ _ _ Hrun).
    destruct d as [|r c]; [|eexists; split; reflexivity].
    unfold bind at 1, GoalReader.findById at 1. cbn [goal_views at_tick].
    unfold SqliteGoalQualifiedProjector.findById in *.
    destruct (List.find _ (goal_views w)) as [row|] eqn:Hrow;
      [|eexists; split; reflexivity].
    specialize (Hstatus row eq_refl). apply String.eqb_neq in Hstatus.
    rewrite Hstatus. cbn [negb]. eexists; split; reflexivity. }
  destruct Hthrows as (e & Hrun' & He). exists e.
  unfold outcome, did, after. rewrite Hrun'. cbn.
  repeat split; [apply drop_all|exact He].
Qed.

Lemma qualify_controller_checks_first_witness :
  exists e,
    outcome (QualifyGoalController_handle Fixtures.goal)
      (Fixtures.at_ten Fixtures.workerA ∅ [Fixtures.added; Fixtures.started]
         [Fixtures.view DOING 2]) = Thrown e
    /\ did (QualifyGoalController_handle Fixtures.goal)
         (Fixtures.at_ten Fixtures.workerA ∅ [Fixtures.added; Fixtures.started]
            [Fixtures.view DOING 2]) = [].
Proof.
  destruct (qualify_controller_checks_first Fixtures.goal
              (Fixtures.at_ten Fixtures.workerA ∅ [Fixtures.added; Fixtures.started]
                 [Fixtures.view DOING 2]))
    as (e & He & Hdid & _).
  - intros row Hrow. vm_compute in Hrow. injection Hrow as <-. discriminate.
  - exists e. split; [exact He|exact Hdid].
Defined.

(** ** SqliteGoalQualifiedProjector: reading after projecting *)

Lemma findById_applyGoalQualified (event : GoalEvent) (db : list GoalView.Row) (id : string) :
  SqliteGoalQualifiedProjector.findById id
    (SqliteGoalQualifiedProjector.applyGoalQualified event db)
  = (fun r => if String.eqb id (aggregateId event)
              then SqliteGoalQualifiedProjector.qualified_row event r else r)
      <$> SqliteGoalQualifiedProjector.findById id db.
Proof.
  unfold SqliteGoalQualifiedProjector.findById,
    SqliteGoalQualifiedProjector.applyGoalQualified.
  induction db as [|r db IH]; [reflexivity|]. cbn [map List.find].
  destruct (String.eqb_spec (GoalView.goalId r) (aggregateId event)) as [Hr|Hr].
  - cbn [SqliteGoalQualifiedProjector.qualified_row GoalView.goalId].
    destruct (String.eqb_spec (GoalView.goalId r) id) as [Hid|Hid].
    + cbn. rewrite <- Hid, Hr, String.eqb_refl. reflexivity.
    + exact IH.
  - destruct (String.eqb_spec (GoalView.goalId r) id) as [Hid|Hid].
    + cbn. rewrite <- Hid. apply String.eqb_neq in Hr. now rewrite Hr.
    + exact IH.
Qed.

(** X11. What [findById] reads after [applyGoalQualified]: a goal the table
    does not hold is still not found, so the projection never inserts; a
    goal other than the event's reads as before; and the event's goal
    reads as its former row with the status, version and timestamp of the
    event and the three claim columns empty. *)
Theorem projection_read_back (event : GoalEvent) (db : list GoalView.Row) (id : string) :
  (SqliteGoalQualifiedProjector.findById id db = None ->
     SqliteGoalQualifiedProjector.findById id
       (SqliteGoalQualifiedProjector.applyGoalQualified event db) = None)
  /\ (id <> aggregateId event ->
     SqliteGoalQualifiedProjector.findById id
       (SqliteGoalQualifiedProjector.applyGoalQualified event db)
     = SqliteGoalQualifiedProjector.findById id db)
  /\ (forall r, id = aggregateId event ->
     SqliteGoalQualifiedProjector.findById id db = Some r ->
     SqliteGoalQualifiedProjector.findById id
       (SqliteGoalQualifiedProjector.applyGoalQualified event db)
     = Some (SqliteGoalQualifiedProjector.qualified_row event r)).
Proof.
  rewrite findById_applyGoalQualified. repeat split.
  - intros ->. reflexivity.
  - intros Hne. apply String.eqb_neq in Hne. rewrite Hne.
    now destruct (SqliteGoalQualifiedProjector.findById id db).
  - intros r Hid ->. apply String.eqb_eq in Hid. now rewrite Hid.
Qed.

Lemma projection_read_back_witness :
  SqliteGoalQualifiedProjector.findById "goal_456"
    (SqliteGoalQualifiedProjector.applyGoalQualified Fixtures.qualified
       [Fixtures.view INREVIEW 3]) = None.
Proof.
  destruct (projection_read_back Fixtures.qualified [Fixtures.view INREVIEW 3] "goal_456")
    as [Hnone _].
  apply Hnone. reflexivity.
Defined.

Lemma qualified_row_twice (e1 e2 : GoalEvent) (r : GoalView.Row) :
  SqliteGoalQualifiedProjector.qualified_row e2
    (SqliteGoalQualifiedProjector.qualified_row e1 r)
  = SqliteGoalQualifiedProjector.qualified_row e2 r.
Proof. reflexivity. Qed.

(** X12. Replaying qualified events on the read model: of two events of the
    same goal the later one decides, so delivering an event twice is the
    same as delivering it once; events of different goals can be projected
    in either order. *)
Theorem projection_replay (e1 e2 : GoalEvent) (db : list GoalView.Row) :
  (aggregateId e1 = aggregateId e2 ->
     SqliteGoalQualifiedProjector.applyGoalQualified e2
       (SqliteGoalQualifiedProjector.applyGoalQualified e1 db)
     = SqliteGoalQualifiedProjector.applyGoalQualified e2 db)
  /\ (aggregateId e1 <> aggregateId e2 ->
     SqliteGoalQualifiedProjector.applyGoalQualified e2
       (SqliteGoalQualifiedProjector.applyGoalQualified e1 db)
     = SqliteGoalQualifiedProjector.applyGoalQualified e1
         (SqliteGoalQualifiedProjector.applyGoalQualified e2 db)).
Proof.
  unfold SqliteGoalQualifiedProjector.applyGoalQualified. split; intros Hid.
  - rewrite map_map. apply map_ext. intros r. rewrite Hid.
    destruct (String.eqb_spec (GoalView.goalId r) (aggregateId e2)) as [Hr|Hr].
    + cbn [SqliteGoalQualifiedProjector.qualified_row GoalView.goalId].
      apply String.eqb_eq in Hr. rewrite Hr. apply qualified_row_twice.
    + apply String.eqb_neq in Hr. now rewrite Hr.
  - rewrite !map_map. apply map_ext. intros r.
    destruct (String.eqb (GoalView.goalId r) (aggregateId e1)) eqn:H1;
      destruct (String.eqb (GoalView.goalId r) (aggregateId e2)) eqn:H2;
      cbn [SqliteGoalQualifiedProjector.qualified_row GoalView.goalId];
      rewrite ?H1, ?H2; try reflexivity.
    apply String.eqb_eq in H1. apply String.eqb_eq in H2. congruence.
Qed.

Lemma projection_replay_witness :
  SqliteGoalQualifiedProjector.applyGoalQualified Fixtures.qualified
    (SqliteGoalQualifiedProjector.applyGoalQualified Fixtures.qualified
       [Fixtures.view INREVIEW 3])
  = SqliteGoalQualifiedProjector.applyGoalQualified Fixtures.qualified
      [Fixtures.view INREVIEW 3].
Proof.
  destruct (projection_replay Fixtures.qualified Fixtures.qualified
              [Fixtures.view INREVIEW 3]) as [Hsame _].
  apply Hsame. reflexivity.
Defined.

(** ** HostSessionKeyResolver: what identifies a session *)

Lemma env_var_set (e : gmap string string) (n v : string) :
  HostSessionKeyResolver.env_var e n = Some v -> e !! n = Some v /\ v <> "".
Proof.
  unfold HostSessionKeyResolver.env_var.
  destruct (e !! n) as [[|c s]|]; [discriminate| |discriminate].
  intros [= <-]. split; [reflexivity|discriminate].
Qed.

Lemma env_part_sources (e : gmap string string) (p : HostSessionKeyResolver.SessionKeyPart) :
  HostSessionKeyResolver.getEnvHostSessionId e = Some p ->
  exists v, v <> "" /\
    (p = {| HostSessionKeyResolver.source := "VSCODE_IPC_HOOK_CLI";
            HostSessionKeyResolver.value := v |}
     \/ p = {| HostSessionKeyResolver.source := "VSCODE_PID";
               HostSessionKeyResolver.value := v |}
     \/ p = {| HostSessionKeyResolver.source := "WT_SESSION";
               HostSessionKeyResolver.value := v |}
     \/ p = {| HostSessionKeyResolver.source := "ITERM_SESSION_ID";
               HostSessionKeyResolver.value := v |}
     \/ p = {| HostSessionKeyResolver.source := "TERM_SESSION_ID";
               HostSessionKeyResolver.value := v |}
     \/ p = {| HostSessionKeyResolver.source := "TERM_PROGRAM";
               HostSessionKeyResolver.value := v |}).
Proof.
  unfold HostSessionKeyResolver.getEnvHostSessionId.
  repeat match goal with
  | |- context [match HostSessionKeyResolver.env_var e ?n with _ => _ end] =>
      let E := fresh "E" in
      destruct (HostSessionKeyResolver.env_var e n) eqn:E;
      [apply env_var_set in E as [_ E]|]
  end; intros [= <-]; eexists; (split; [|eauto 10]); eauto.
  destruct s; [congruence|discriminate].
Qed.

(** X13. The order in which [getEnvHostSessionId] looks at the environment:
    of VSCODE_IPC_HOOK_CLI, VSCODE_PID, WT_SESSION, ITERM_SESSION_ID and
    TERM_SESSION_ID the first that is set to a non-empty text gives the
    part, whatever the later ones hold; when none of the five is, the part
    is TERM_PROGRAM with [program:version] if both of these are set and
    there is no part otherwise. *)
Theorem env_session_follows_priority (e : gmap string string) :
  (forall before name after v,
     ["VSCODE_IPC_HOOK_CLI"; "VSCODE_PID"; "WT_SESSION"; "ITERM_SESSION_ID";
      "TERM_SESSION_ID"] = (before ++ name :: after)%list ->
     (forall n, In n before -> HostSessionKeyResolver.env_var e n = None) ->
     HostSessionKeyResolver.env_var e name = Some v ->
     HostSessionKeyResolver.getEnvHostSessionId e
     = Some {| HostSessionKeyResolver.source := name;
               HostSessionKeyResolver.value := v |})
  /\ ((forall n, In n ["VSCODE_IPC_HOOK_CLI"; "VSCODE_PID"; "WT_SESSION";
                       "ITERM_SESSION_ID"; "TERM_SESSION_ID"] ->
         HostSessionKeyResolver.env_var e n = None) ->
      HostSessionKeyResolver.getEnvHostSessionId e
      = match HostSessionKeyResolver.env_var e "TERM_PROGRAM",
              HostSessionKeyResolver.env_var e "TERM_PROGRAM_VERSION" with
        | Some program, Some version =>
            Some {| HostSessionKeyResolver.source := "TERM_PROGRAM";
                    HostSessionKeyResolver.value := program ++ ":" ++ version |}
        | _, _ => None
        end).
Proof.
  split.
  - intros before name after v Hsplit Hbefore Hset.
    unfold HostSessionKeyResolver.getEnvHostSessionId.
    do 5 (destruct before as [|? before];
          [injection Hsplit as <- _; now rewrite Hset|];
          injection Hsplit as <- Hsplit;
          rewrite (Hbefore _ (or_introl eq_refl));
          assert (Hbefore' : forall n, In n before ->
                               HostSessionKeyResolver.env_var e n = None)
            by (intros n Hn; apply Hbefore; now right);
          clear Hbefore; rename Hbefore' into Hbefore).
    destruct before; discriminate.
  - intros Hnone. unfold HostSessionKeyResolver.getEnvHostSessionId.
    rewrite !Hnone by (cbn; tauto). reflexivity.
Qed.

Lemma env_session_follows_priority_witness :
  HostSessionKeyResolver.getEnvHostSessionId
    {["WT_SESSION" := "wt-1"; "TERM_SESSION_ID" := "term-2"; "VSCODE_PID" := ""]}
  = Some {| HostSessionKeyResolver.source := "WT_SESSION";
            HostSessionKeyResolver.value := "wt-1" |}.
Proof.
  destruct (env_session_follows_priority
              {["WT_SESSION" := "wt-1"; "TERM_SESSION_ID" := "term-2"; "VSCODE_PID" := ""]})
    as [Hfirst _].
  apply (Hfirst ["VSCODE_IPC_HOOK_CLI"; "VSCODE_PID"] "WT_SESSION"
           ["ITERM_SESSION_ID"; "TERM_SESSION_ID"]).
  - reflexivity.
  - intros n [<-|[<-|[]]]; vm_compute; reflexivity.
  - vm_compute. reflexivity.
Defined.

(** X14. What [resolve] hashes.  With a session part from the environment
    the hashed text is [source=value] of that part alone, so the parent
    process, the user and the host name play no role; without one it is
    the four parts PPID, PSTART, USER and HOST in this order, joined by
    [|], where PSTART is [unknown] when the start time of the parent could
    not be read or came out empty. *)
Theorem resolve_hashes (h : HostSessionKeyResolver.Host) :
  (forall p, HostSessionKeyResolver.getEnvHostSessionId (HostSessionKeyResolver.env h) = Some p ->
     HostSessionKeyResolver.resolve_parts h = [p]
     /\ HostSessionKeyResolver.hash_input (HostSessionKeyResolver.resolve_parts h)
        = HostSessionKeyResolver.source p ++ "=" ++ HostSessionKeyResolver.value p
     /\ forall h', HostSessionKeyResolver.env h' = HostSessionKeyResolver.env h ->
          HostSessionKeyResolver.resolve_parts h' = HostSessionKeyResolver.resolve_parts h)
  /\ (HostSessionKeyResolver.getEnvHostSessionId (HostSessionKeyResolver.env h) = None ->
     map HostSessionKeyResolver.source (HostSessionKeyResolver.resolve_parts h)
     = ["PPID"; "PSTART"; "USER"; "HOST"]
     /\ HostSessionKeyResolver.hash_input (HostSessionKeyResolver.resolve_parts h)
        = "PPID=" ++ pretty (HostSessionKeyResolver.ppid h)
          ++ "|PSTART="
          ++ match HostSessionKeyResolver.lstart h with
             | None | Some "" => "unknown"
             | Some t => t
             end
          ++ "|USER=" ++ HostSessionKeyResolver.username h
          ++ "|HOST=" ++ HostSessionKeyResolver.hostname h).
Proof.
  unfold HostSessionKeyResolver.resolve_parts. split.
  - intros p Hp. rewrite Hp. repeat split.
    intros h' ->. now rewrite Hp.
  - intros ->. split; [reflexivity|].
    unfold HostSessionKeyResolver.hash_input, HostSessionKeyResolver.getParentStartTime.
    cbn [map String.concat HostSessionKeyResolver.source HostSessionKeyResolver.value].
    destruct (HostSessionKeyResolver.lstart h) as [[|c t]|];
      reflexivity.
Qed.

Lemma resolve_hashes_witness :
  HostSessionKeyResolver.hash_input
    (HostSessionKeyResolver.resolve_parts
       {| HostSessionKeyResolver.env := {["TERM" := "xterm"]};
          HostSessionKeyResolver.ppid := 4242;
          HostSessionKeyResolver.lstart := None;
          HostSessionKeyResolver.username := "dev";
          HostSessionKeyResolver.hostname := "box" |})
  = "PPID=4242|PSTART=unknown|USER=dev|HOST=box".
Proof.
  destruct (resolve_hashes
       {| HostSessionKeyResolver.env := {["TERM" := "xterm"]};
          HostSessionKeyResolver.ppid := 4242;
          HostSessionKeyResolver.lstart := None;
          HostSessionKeyResolver.username := "dev";
          HostSessionKeyResolver.hostname := "box" |}) as [_ Hfallback].
  destruct Hfallback as [_ Htext]; [vm_compute; reflexivity|].
  rewrite Htext. vm_compute. reflexivity.
Defined.

Lemma fallback_text_starts (h : HostSessionKeyResolver.Host) :
  HostSessionKeyResolver.getEnvHostSessionId (HostSessionKeyResolver.env h) = None ->
  exists rest,
    HostSessionKeyResolver.hash_input (HostSessionKeyResolver.resolve_parts h)
    = String "P" rest.
Proof.
  intros Hnone. unfold HostSessionKeyResolver.resolve_parts. rewrite Hnone.
  eexists. reflexivity.
Qed.

(** X15. No two sessions that the environment identifies differently are
    hashed from the same text, and none shares its text with a session
    identified by the fallback: when one of two hosts has a session part
    from the environment and the texts that [hashParts] hashes are equal,
    the parts are equal. *)
Theorem env_sessions_hash_apart (h h' : HostSessionKeyResolver.Host)
    (p : HostSessionKeyResolver.SessionKeyPart) :
  HostSessionKeyResolver.getEnvHostSessionId (HostSessionKeyResolver.env h) = Some p ->
  HostSessionKeyResolver.hash_input (HostSessionKeyResolver.resolve_parts h)
  = HostSessionKeyResolver.hash_input (HostSessionKeyResolver.resolve_parts h') ->
  HostSessionKeyResolver.resolve_parts h' = HostSessionKeyResolver.resolve_parts h.
Proof.
  intros Hp.
  destruct (HostSessionKeyResolver.getEnvHostSessionId (HostSessionKeyResolver.env h'))
    as [p'|] eqn:Hp'.
  - unfold HostSessionKeyResolver.resolve_parts. rewrite Hp, Hp'.
    apply env_part_sources in Hp as (v & _ & Hp).
    apply env_part_sources in Hp' as (v' & _ & Hp').
    unfold HostSessionKeyResolver.hash_input.
    destruct Hp as [-> | [-> | [-> | [-> | [-> | -> ] ] ] ] ];
      destruct Hp' as [-> | [-> | [-> | [-> | [-> | -> ] ] ] ] ];
      intros Htext; cbv in Htext; congruence.
  - destruct (fallback_text_starts h' Hp') as [rest Hrest]. rewrite Hrest.
    unfold HostSessionKeyResolver.resolve_parts. rewrite Hp.
    apply env_part_sources in Hp as (v & _ & Hp).
    unfold HostSessionKeyResolver.hash_input.
    destruct Hp as [-> | [-> | [-> | [-> | [-> | -> ] ] ] ] ]; cbv; discriminate.
Qed.

Lemma env_sessions_hash_apart_witness :
  HostSessionKeyResolver.resolve_parts
    {| HostSessionKeyResolver.env := {["WT_SESSION" := "wt-1"]};
       HostSessionKeyResolver.ppid := 7;
       HostSessionKeyResolver.lstart := Some "Mon Jan 15 10:00:00 2025";
       HostSessionKeyResolver.username := "other";
       HostSessionKeyResolver.hostname := "elsewhere" |}
  = HostSessionKeyResolver.resolve_parts
    {| HostSessionKeyResolver.env := {["WT_SESSION" := "wt-1"; "TERM" := "xterm"]};
       HostSessionKeyResolver.ppid := 4242;
       HostSessionKeyResolver.lstart := None;
       HostSessionKeyResolver.username := "dev";
       HostSessionKeyResolver.hostname := "box" |}.
Proof.
  apply (env_sessions_hash_apart _ _
           {| HostSessionKeyResolver.source := "WT_SESSION";
              HostSessionKeyResolver.value := "wt-1" |}).
  - vm_compute. reflexivity.
  - vm_compute. reflexivity.
Defined.


(** ** FsWorkerIdentityRegistry: one worker per host session *)




(** X17. A registry file that is missing, or whose text the engine cannot
    parse, counts as empty: the resolution returns the identifier it drew
    and writes a registry with the entry of this session alone, created
    and last seen at the time drawn; what an unparseable file held is
    gone. *)
Theorem registry_starts_fresh `{FsWorkerIdentityRegistry.JSON}
    (d : FsWorkerIdentityRegistry.Drawn) (p : FsGoalClaimStore.Path) :
  p = FsGoalClaimStore.NoFile
  \/ (exists text, p = FsGoalClaimStore.Content text
                   /\ FsWorkerIdentityRegistry.JSON_parse text = None) ->
  FsWorkerIdentityRegistry.resolveWorkerId d p
  = (Returned (createWorkerId (FsWorkerIdentityRegistry.uuid d)),
     FsGoalClaimStore.Content
       (FsWorkerIdentityRegistry.JSON_stringify
          {| FsWorkerIdentityRegistry.entries :=
               {[ FsWorkerIdentityRegistry.sessionKey d :=
                    {| FsWorkerIdentityRegistry.workerId := FsWorkerIdentityRegistry.uuid d;
                       FsWorkerIdentityRegistry.hostSessionKey :=
                         FsWorkerIdentityRegistry.sessionKey d;
                       FsWorkerIdentityRegistry.createdAt := FsWorkerIdentityRegistry.time d;
                       FsWorkerIdentityRegistry.lastSeenAt := FsWorkerIdentityRegistry.time d
                    |} ]} |})).
Proof.
  intros [->|(text & -> & Hbad)];
    unfold FsWorkerIdentityRegistry.resolveWorkerId, FsWorkerIdentityRegistry.loadRegistry;
    cbn; rewrite ?Hbad; cbn; rewrite lookup_empty; cbn; rewrite insert_empty; reflexivity.
Qed.

Lemma registry_starts_fresh_witness :
  fst (FsWorkerIdentityRegistry.resolveWorkerId
         {| FsWorkerIdentityRegistry.sessionKey := "session-key-a";
            FsWorkerIdentityRegistry.uuid := "11111111-1111-4111-8111-111111111111";
            FsWorkerIdentityRegistry.time := "2025-01-15T10:00:00.000Z" |}
         (FsGoalClaimStore.Content "not valid json {{{"))
  = Returned (createWorkerId "11111111-1111-4111-8111-111111111111").
Proof.
  rewrite (registry_starts_fresh
             {| FsWorkerIdentityRegistry.sessionKey := "session-key-a";
                FsWorkerIdentityRegistry.uuid := "11111111-1111-4111-8111-111111111111";
                FsWorkerIdentityRegistry.time := "2025-01-15T10:00:00.000Z" |}
             (FsGoalClaimStore.Content "not valid json {{{")).
  - reflexivity.
  - right. exists "not valid json {{{". split; [reflexivity|vm_compute; reflexivity].
Defined.

(** X18. The [workerId] getter resolves once: after a get that returned an
    id, every later get returns that id and leaves the registry file as it
    finds it, whatever would be drawn then; a get whose resolution threw
    has kept nothing, and wrote nothing. *)
Theorem workerId_is_resolved_once `{FsWorkerIdentityRegistry.JSON}
    (d : FsWorkerIdentityRegistry.Drawn) (p : FsGoalClaimStore.Path) :
  match FsWorkerIdentityRegistry.get_workerId d None p with
  | (Returned id, (kept, p1)) =>
      fst (FsWorkerIdentityRegistry.resolveWorkerId d p) = Returned id
      /\ p1 = snd (FsWorkerIdentityRegistry.resolveWorkerId d p)
      /\ forall d' p2,
           FsWorkerIdentityRegistry.get_workerId d' kept p2 = (Returned id, (kept, p2))
  | (Thrown e, (kept, p1)) => kept = None /\ p1 = p
  end.
Proof.
  unfold FsWorkerIdentityRegistry.get_workerId.
  destruct (FsWorkerIdentityRegistry.resolveWorkerId d p) as [[id|e] p1] eqn:E.
  - cbn. auto.
  - split; [reflexivity|].
    unfold FsWorkerIdentityRegistry.resolveWorkerId in E.
    destruct (FsWorkerIdentityRegistry.entries _ !! _); destruct p; cbn in E;
      congruence.
Qed.

(** ** CliVersionReader *)

(** X19. [getVersion] either returns a version or throws an error whose
    message starts with the fixed prefix.  A version it read itself is a
    non-empty text, the [version] field of the parsed [package.json]; once
    returned it is kept, and every later call returns it without looking
    at the file.  After a throw nothing is kept, so the next call reads
    the file again. *)
Theorem getVersion_reads_once `{CliVersionReader.PackageJson}
    (cachedVersion : option CliVersionReader.CliVersion)
    (file : CliVersionReader.PackageFile) :
  match CliVersionReader.getVersion cachedVersion file with
  | (Returned v, kept) =>
      kept = Some v
      /\ (forall file', CliVersionReader.getVersion kept file' = (Returned v, kept))
      /\ match cachedVersion with
         | Some cached => v = cached
         | None =>
             CliVersionReader.version v <> ""
             /\ exists content,
                  file = CliVersionReader.Holds content
                  /\ CliVersionReader.JSON_parse content
                     = CliVersionReader.Package
                         (CliVersionReader.VersionText (CliVersionReader.version v))
         end
  | (Thrown e, kept) =>
      cachedVersion = None /\ kept = None
      /\ exists errorMessage, e = CliVersionReader.wrapped errorMessage
  end.
Proof.
  unfold CliVersionReader.getVersion.
  destruct cachedVersion as [cached|]; [auto|].
  destruct file as [message|content]; [eauto|].
  destruct (CliVersionReader.JSON_parse content) as [m|m|[| |[|c text]]] eqn:E; eauto.
  repeat split; [discriminate|]. exists content. split; [reflexivity|exact E].
Qed.

(** ** FsSettingsInitializer and the planned changes *)

(** X20. [ensureSettingsFileExists] never overwrites: a settings file that
    exists, readable or not, is left as it is.  A missing file is created
    with the default content.  After a call that returned, the file
    exists, so a further call changes nothing and no change is planned for
    it any more; a call that threw has left the path as it was. *)
Theorem settings_file_is_created_once (writable : bool) (p : FsGoalClaimStore.Path) :
  (FsGoalClaimStore.existsSync p = true ->
     FsSettingsInitializer.ensureSettingsFileExists writable p = (Returned tt, p))
  /\ (FsGoalClaimStore.existsSync p = false ->
      fst (FsSettingsInitializer.ensureSettingsFileExists writable p) = Returned tt ->
      snd (FsSettingsInitializer.ensureSettingsFileExists writable p)
      = FsGoalClaimStore.Content FsSettingsInitializer.content)
  /\ (fst (FsSettingsInitializer.ensureSettingsFileExists writable p) = Returned tt ->
      let p' := snd (FsSettingsInitializer.ensureSettingsFileExists writable p) in
      FsGoalClaimStore.existsSync p' = true
      /\ FsSettingsInitializer.getPlannedFileChange p' = None
      /\ forall writable',
           FsSettingsInitializer.ensureSettingsFileExists writable' p' = (Returned tt, p'))
  /\ (forall e,
        fst (FsSettingsInitializer.ensureSettingsFileExists writable p) = Thrown e ->
        snd (FsSettingsInitializer.ensureSettingsFileExists writable p) = p
        /\ FsGoalClaimStore.existsSync p = false).
Proof.
  unfold FsSettingsInitializer.ensureSettingsFileExists,
    FsSettingsInitializer.getPlannedFileChange.
  destruct p, writable; cbn; repeat split; intros; try discriminate; reflexivity.
Qed.

Lemma settings_file_is_created_once_witness :
  FsSettingsInitializer.ensureSettingsFileExists true
    (FsGoalClaimStore.Content "{ // edited by hand }")
  = (Returned tt, FsGoalClaimStore.Content "{ // edited by hand }").
Proof.
  destruct (settings_file_is_created_once true
              (FsGoalClaimStore.Content "{ // edited by hand }")) as [Hkept _].
  apply Hkept. reflexivity.
Defined.

(** X21. [getPlannedFileChanges] lists what the agent file protocol plans,
    in its order, and after it the creation of the settings file exactly
    when that file does not exist; once [ensureSettingsFileExists] has
    returned, the plan is what the agent file protocol plans and nothing
    else. *)
Theorem plan_lists_settings_last (agentChanges : list PlannedFileChange)
    (settings : FsGoalClaimStore.Path) :
  (FsGoalClaimStore.existsSync settings = true ->
     InitializationProtocol.getPlannedFileChanges agentChanges settings = agentChanges)
  /\ (FsGoalClaimStore.existsSync settings = false ->
      InitializationProtocol.getPlannedFileChanges agentChanges settings
      = (agentChanges ++ [{| path := ".jumbo/settings.jsonc"; action := create;
                             description := "Jumbo configuration settings" |}])%list)
  /\ (forall writable,
        fst (FsSettingsInitializer.ensureSettingsFileExists writable settings) = Returned tt ->
        InitializationProtocol.getPlannedFileChanges agentChanges
          (snd (FsSettingsInitializer.ensureSettingsFileExists writable settings))
        = agentChanges).
Proof.
  unfold InitializationProtocol.getPlannedFileChanges,
    FsSettingsInitializer.getPlannedFileChange,
    FsSettingsInitializer.ensureSettingsFileExists.
  repeat split.
  - intros ->. reflexivity.
  - intros ->. reflexivity.
  - intros writable. destruct settings, writable; cbn; try discriminate; reflexivity.
Qed.

Lemma plan_lists_settings_last_witness :
  InitializationProtocol.getPlannedFileChanges
    [{| path := "AGENTS.md"; action := modify; description := "Agent instructions" |}]
    FsGoalClaimStore.NoFile
  = [{| path := "AGENTS.md"; action := modify; description := "Agent instructions" |};
     {| path := ".jumbo/settings.jsonc"; action := create;
        description := "Jumbo configuration settings" |}].
Proof.
  destruct (plan_lists_settings_last
              [{| path := "AGENTS.md"; action := modify;
                  description := "Agent instructions" |}]
              FsGoalClaimStore.NoFile) as (_ & Hmissing & _).
  apply Hmissing. reflexivity.
Defined.

(** ** CompleteGoalController: the response *)

(** X22. A response of [CompleteGoalController.handle] is read from the
    read model as the command left it: objective and status are those of
    the goal's row, and a next goal is named only when that row has a
    non-empty [nextGoalId] whose goal has a row itself, with the id,
    objective and status of that row. *)
Theorem complete_response_reads_the_views `{JSDate}
    (g : string) (w : World) (r : CompleteGoalResponse) :
  outcome (CompleteGoalController_handle g) w = Returned r ->
  let views := goal_views (after (CompleteGoalController_handle g) w) in
  exists row,
    SqliteGoalQualifiedProjector.findById g views = Some row
    /\ completed_goalId r = g
    /\ completed_objective r = GoalView.objective row
    /\ completed_status r = GoalView.status row
    /\ completed_nextGoal r
       = match GoalView.nextGoalId row with
         | None | Some "" => None
         | Some nextGoalId =>
             match SqliteGoalQualifiedProjector.findById nextGoalId views with
             | Some n => Some {| next_goalId := GoalView.goalId n;
                                 next_objective := GoalView.objective n;
                                 next_status := GoalView.status n |}
             | None => None
             end
         end.
Proof.
  unfold outcome, after.
  destruct (CompleteGoalController_handle g w) as [o w2] eqn:E. cbn. intros ->.
  unfold CompleteGoalController_handle in E.
  apply bind_inv in E as (wk & w1 & _ & E).
  apply bind_inv in E as (d & w1' & _ & E).
  destruct d as [|reason c]; [|discriminate].
  apply bind_inv in E as (x & w3 & _ & E).
  apply bind_inv in E as (view & w4 & Ev & E).
  unfold GoalReader.findById in Ev. injection Ev as <- <-.
  unfold SqliteGoalQualifiedProjector.findById.
  destruct (List.find _ (goal_views w3)) as [row|] eqn:Hrow; [|discriminate].
  apply bind_inv in E as (nextGoal & w5 & En & E).
  unfold ret in E. injection E as <- <-.
  assert (Hnext : w5 = w3 /\ nextGoal
            = match GoalView.nextGoalId row with
              | None | Some "" => None
              | Some nextGoalId =>
                  match List.find (fun r => String.eqb (GoalView.goalId r) nextGoalId)
                          (goal_views w3) with
                  | Some n => Some {| next_goalId := GoalView.goalId n;
                                      next_objective := GoalView.objective n;
                                      next_status := GoalView.status n |}
                  | None => None
                  end
              end).
  { unfold truthy in En.
    destruct (GoalView.nextGoalId row) as [[|c0 s]|]; cbn in En;
      injection En as <- <-; split; reflexivity. }
  destruct Hnext as [-> ->]. exists row. cbn. rewrite Hrow. repeat split.
Qed.

Lemma complete_response_reads_the_views_witness :
  exists row,
    SqliteGoalQualifiedProjector.findById Fixtures.goal
      (goal_views (after (CompleteGoalController_handle Fixtures.goal)
         (Fixtures.at_ten Fixtures.workerA (Fixtures.holding Fixtures.activeA)
            [Fixtures.added; Fixtures.started; Fixtures.submitted; Fixtures.qualified]
            [Fixtures.view QUALIFIED 4]))) = Some row
    /\ GoalView.nextGoalId row = None.
Proof.
  destruct (complete_response_reads_the_views Fixtures.goal
              (Fixtures.at_ten Fixtures.workerA (Fixtures.holding Fixtures.activeA)
                 [Fixtures.added; Fixtures.started; Fixtures.submitted; Fixtures.qualified]
                 [Fixtures.view QUALIFIED 4])
              {| completed_goalId := Fixtures.goal;
                 completed_objective := GoalView.objective (Fixtures.view QUALIFIED 4);
                 completed_status := GoalView.status (Fixtures.view QUALIFIED 4);
                 completed_nextGoal := None |})
    as (row & Hrow & _).
  - vm_compute. reflexivity.
  - exists row. split; [exact Hrow|].
    vm_compute in Hrow. injection Hrow as <-. reflexivity.
Defined.
